(** * ztnet: the authentication router and the user-creation endpoint

    A shallow embedding of
    - the tRPC [authRouter] ([register], [me], [update], [passwordResetLink],
      [changePasswordFromJwt]) together with its password policy
      ([mediumPassword], [passwordSchema]);
    - the REST handler [createUserHandler] of [pages/api/v1/users].

    JavaScript strings are modelled by [string]: one [ascii] per UTF-16 code
    unit, restricted to the code units 0..255.  Code units above 255 are
    outside the model (two of them, U+2028 and U+2029, are line terminators
    as well).

    The database is a list of user rows and the singleton row of the global
    options.  A request is a computation in a state-and-exception monad over
    that database, the log of database calls, the mails delivered and the
    console.  Constraints that the database schema may add to the tables
    (unique columns) are not part of the sources and are not modelled: a
    write the model performs may be refused by the real database. *)

From Stdlib Require Import String Ascii List Bool ZArith Lia.
Import ListNotations.
Open Scope string_scope.

(** ** JavaScript string primitives *)

Module Js.

Definition code (a : ascii) : nat := nat_of_ascii a.

(** ECMAScript LineTerminator: LF and CR (U+2028/U+2029 lie outside the
    modelled code units). *)
Definition is_line_terminator (a : ascii) : bool :=
  (code a =? 10)%nat || (code a =? 13)%nat.

(** ECMAScript WhiteSpace and LineTerminator below 256: TAB, LF, VT, FF, CR,
    SP, NBSP.  This is what [String.prototype.trim] strips. *)
Definition is_space (a : ascii) : bool :=
  ((9 <=? code a)%nat && (code a <=? 13)%nat)
  || (code a =? 32)%nat || (code a =? 160)%nat.

Fixpoint trimStart (s : string) : string :=
  match s with
  | String a s' => if is_space a then trimStart s' else s
  | EmptyString => EmptyString
  end.

Fixpoint trimEnd (s : string) : string :=
  match s with
  | EmptyString => EmptyString
  | String a s' =>
      match trimEnd s' with
      | EmptyString => if is_space a then EmptyString else String a EmptyString
      | t => String a t
      end
  end.

Definition trim (s : string) : string := trimEnd (trimStart s).

(** Truthiness of a string: every string but the empty one. *)
Definition truthy (s : string) : bool :=
  match s with EmptyString => false | String _ _ => true end.

(** Truthiness of a possibly-undefined string. *)
Definition truthy_opt (o : option string) : bool :=
  match o with Some s => truthy s | None => false end.

(** [a || b] on a possibly-undefined string and a string. *)
Definition or_else (o : option string) (d : string) : string :=
  match o with
  | Some s => if truthy s then s else d
  | None => d
  end.

Definition lower_char (a : ascii) : ascii :=
  let n := code a in
  if ((65 <=? n)%nat && (n <=? 90)%nat)
     || ((192 <=? n)%nat && (n <=? 214)%nat)
     || ((216 <=? n)%nat && (n <=? 222)%nat)
  then ascii_of_nat (n + 32) else a.

(** [String.prototype.toLowerCase] on the modelled code units: the letters
    A-Z and the capital letters of Latin-1 (U+00C0-U+00DE but the
    multiplication sign) move up by 32. *)
Fixpoint toLowerCase (s : string) : string :=
  match s with
  | EmptyString => EmptyString
  | String a s' => String (lower_char a) (toLowerCase s')
  end.

Fixpoint exists_char (p : ascii -> bool) (s : string) : bool :=
  match s with
  | EmptyString => false
  | String a s' => p a || exists_char p s'
  end.

End Js.

(** ** A backtracking matcher for the regular expressions of the source

    Only the constructs that [mediumPassword] uses: the start anchor,
    character classes, greedy repetition of a class, sequence, alternation
    and positive lookahead.  The matcher is written in continuation-passing
    style; the state is the rest of the input and whether the position is
    still the beginning of the input. *)

Module Regex.

Inductive regex : Type :=
| Bos                                   (* ^ (no multiline flag) *)
| Cls (p : ascii -> bool)               (* [..] and . *)
| Star (p : ascii -> bool)              (* c*, greedy *)
| AtLeast (n : nat) (p : ascii -> bool) (* c{n,}, greedy *)
| Seq (r1 r2 : regex)
| Alt (r1 r2 : regex)
| Look (r : regex).                     (* (?=r) *)

Definition cont := bool -> string -> bool.

Definition accept : cont := fun _ _ => true.

Fixpoint star (p : ascii -> bool) (bos : bool) (s : string) (k : cont) : bool :=
  match s with
  | String a s' => if p a then star p false s' k || k bos s else k bos s
  | EmptyString => k bos s
  end.

Fixpoint at_least (n : nat) (p : ascii -> bool) (bos : bool) (s : string)
  (k : cont) : bool :=
  match n with
  | O => star p bos s k
  | S n' =>
      match s with
      | String a s' => if p a then at_least n' p false s' k else false
      | EmptyString => false
      end
  end.

Fixpoint rmatch (r : regex) (bos : bool) (s : string) (k : cont) : bool :=
  match r with
  | Bos => bos && k bos s
  | Cls p =>
      match s with
      | String a s' => p a && k false s'
      | EmptyString => false
      end
  | Star p => star p bos s k
  | AtLeast n p => at_least n p bos s k
  | Seq r1 r2 => rmatch r1 bos s (fun b t => rmatch r2 b t k)
  | Alt r1 r2 => rmatch r1 bos s k || rmatch r2 bos s k
  | Look r' => rmatch r' bos s accept && k bos s
  end.

(** [RegExp.prototype.test] without the g and y flags: a match is tried at
    every start index, from 0 to the length. *)
Fixpoint search (r : regex) (bos : bool) (s : string) : bool :=
  rmatch r bos s accept
  || match s with
     | String _ s' => search r false s'
     | EmptyString => false
     end.

Definition test (r : regex) (s : string) : bool := search r true s.

(** [.] without the s flag: any code unit but a line terminator. *)
Definition dot (a : ascii) : bool := negb (Js.is_line_terminator a).

Definition range (lo hi : nat) (a : ascii) : bool :=
  (lo <=? Js.code a)%nat && (Js.code a <=? hi)%nat.

Definition lower : ascii -> bool := range 97 122.  (* [a-z] *)
Definition upper : ascii -> bool := range 65 90.   (* [A-Z] *)
Definition digit : ascii -> bool := range 48 57.   (* [0-9] *)

End Regex.

(** ** The password policy *)

Import Regex.

(** [(?=.*c)] *)
Definition ahead (c : ascii -> bool) : regex := Look (Seq (Star dot) (Cls c)).

(** [^(((?=.*[a-z])(?=.*[A-Z]))|((?=.*[a-z])(?=.*[0-9]))|((?=.*[A-Z])(?=.*[0-9])))(?=.{6,})] *)
Definition mediumPassword : regex :=
  Seq Bos
    (Seq (Alt (Seq (ahead lower) (ahead upper))
           (Alt (Seq (ahead lower) (ahead digit))
                (Seq (ahead upper) (ahead digit))))
         (Look (AtLeast 6 dot))).

(** [z.string().nonempty().max(40).refine(val => mediumPassword.test(val))]:
    [true] when the parse succeeds.  Which failure is reported (a zod issue or
    the error thrown from the refinement) is not modelled. *)
Definition passwordSchema (val : string) : bool :=
  Js.truthy val && (String.length val <=? 40)%nat && test mediumPassword val.

(** ** Data model *)

Inductive Role : Type := ADMIN | USER.

Definition Role_eqb (a b : Role) : bool :=
  match a, b with
  | ADMIN, ADMIN | USER, USER => true
  | _, _ => false
  end.

(** A row of the [user] table, with the columns this router reads or writes.
    [id] is the numeric primary key; [lastLogin] is kept as a timestamp. *)
Module User.
Record t : Type := mk {
  id : Z;
  name : string;
  email : string;
  lastLogin : Z;
  role : Role;
  hash : string
}.
End User.

(** A mail template: an object with a [subject] and a [body]. *)
Module Template.
Record t : Type := mk { subject : string; body : string }.
End Template.

(** The singleton row (id 1) of the [globalOptions] table. *)
Module GlobalOptions.
Record t : Type := mk {
  enableRegistration : bool;
  userRegistrationNotification : bool;
  notificationTemplate : option Template.t;
  forgotPasswordTemplate : option Template.t;
  smtpEmail : string
}.
End GlobalOptions.

Module MailOptions.
Record t : Type := mk {
  from : string;
  to : string;
  subject : string;
  html : string
}.
End MailOptions.

(** The payload of a reset token, as [jwt.decode] hands it back: both claims
    may be missing. *)
Module Claims.
Record t : Type := mk { id : option Z; email : option string }.
End Claims.

(** ** Errors and results *)

Inductive trpc_code : Type :=
| BAD_REQUEST
| NOT_FOUND
| INTERNAL_SERVER_ERROR.

Inductive exn : Type :=
| TRPCError (code : trpc_code) (message : string)
| TypeError                      (* property access on null/undefined *)
| InputError                     (* the zod input parser rejected the input *)
| RecordNotFound                 (* prisma update without a matching row *)
| JwtError                       (* jwt.sign / jwt.verify threw *)
| RenderError                    (* ejs.render / JSON.parse threw *)
| MailError.                     (* sendEmail rejected *)

(** What a procedure hands back to its caller. *)
Inductive value : Type :=
| VUndefined
| VString (s : string)
| VError (message : string)      (* an Error object, returned, not thrown *)
| VUser (u : User.t)
| VRegistered (u : User.t).      (* { user: newUser } *)

Inductive result (A : Type) : Type :=
| Ok (a : A)
| Throw (e : exn).
Arguments Ok {A} a.
Arguments Throw {A} e.

(** ** The world a request runs in *)

(** The database calls a procedure makes, in order. *)
Inductive Query : Type :=
| GlobalOptionsFindFirst
| UserFindFirstByEmail (email : string)
| UserFindFirstById (id : Z)
| UserCount
| UserCreate
| UserFindManyByRole (role : Role)
| UserUpdate (id : Z).

Record World : Type := mkWorld {
  users : list User.t;               (* the user table, in insertion order *)
  options : option GlobalOptions.t;  (* the globalOptions row with id 1 *)
  nextId : Z;                        (* the autoincrement sequence of user.id *)
  queries : list Query;              (* database calls so far, latest first *)
  outbox : list MailOptions.t;       (* mails delivered, latest first *)
  console : list exn                 (* console.error, latest first *)
}.

(** What varies from one request to the next without being an input. *)
Record Env : Type := mkEnv {
  now : Z;                (* the clock *)
  salt : string;          (* the salt bcrypt draws for this request *)
  NEXTAUTH_URL : string   (* process.env.NEXTAUTH_URL *)
}.

(** ** The state-and-exception monad of a request *)

Definition M (A : Type) : Type := World -> result A * World.

Definition ret {A} (a : A) : M A := fun w => (Ok a, w).

Definition throw {A} (e : exn) : M A := fun w => (Throw e, w).

Definition bind {A B} (m : M A) (f : A -> M B) : M B :=
  fun w =>
    match m w with
    | (Ok a, w') => f a w'
    | (Throw e, w') => (Throw e, w')
    end.

(** [try { m } catch (error) { h error }]: effects of [m] before the throw
    are kept. *)
Definition try_catch {A} (m : M A) (h : exn -> M A) : M A :=
  fun w =>
    match m w with
    | (Ok a, w') => (Ok a, w')
    | (Throw e, w') => h e w'
    end.

Declare Scope m_scope.
Delimit Scope m_scope with m.
Notation "x <- m ;; k" := (bind m (fun x => k))
  (at level 100, m at next level, right associativity) : m_scope.
Notation "m ;; k" := (bind m (fun _ => k))
  (at level 100, right associativity) : m_scope.
Open Scope m_scope.

(** [if (c) throw e;] *)
Definition throw_if (c : bool) (e : exn) : M unit :=
  if c then throw e else ret tt.

Fixpoint for_each {A} (l : list A) (f : A -> M unit) : M unit :=
  match l with
  | [] => ret tt
  | a :: l' => f a ;; for_each l' f
  end.

Definition log_query (q : Query) : M unit :=
  fun w => (Ok tt, mkWorld (users w) (options w) (nextId w) (q :: queries w)
                      (outbox w) (console w)).

Definition console_error (e : exn) : M unit :=
  fun w => (Ok tt, mkWorld (users w) (options w) (nextId w) (queries w)
                      (outbox w) (e :: console w)).

(** ** The prisma client *)

Module prisma.

(** [globalOptions.findFirst({ where: { id: 1 } })] *)
Definition globalOptions_findFirst : M (option GlobalOptions.t) :=
  log_query GlobalOptionsFindFirst ;;
  fun w => (Ok (options w), w).

(** [user.findFirst({ where: { email } })]: the equality filter of prisma,
    an exact match. *)
Definition user_findFirst_email (email : string) : M (option User.t) :=
  log_query (UserFindFirstByEmail email) ;;
  fun w => (Ok (find (fun u => User.email u =? email) (users w)), w).

(** [user.findFirst({ where: { id } })] *)
Definition user_findFirst_id (id : Z) : M (option User.t) :=
  log_query (UserFindFirstById id) ;;
  fun w => (Ok (find (fun u => (User.id u =? id)%Z) (users w)), w).

(** [user.count()] *)
Definition user_count : M Z :=
  log_query UserCount ;;
  fun w => (Ok (Z.of_nat (List.length (users w))), w).

(** [user.findMany({ where: { role } })] *)
Definition user_findMany_role (r : Role) : M (list User.t) :=
  log_query (UserFindManyByRole r) ;;
  fun w => (Ok (filter (fun u => Role_eqb (User.role u) r) (users w)), w).

(** [user.create({ data })]: the row gets the next id of the sequence and
    is appended to the table. *)
Definition user_create (name email : string) (lastLogin : Z) (role : Role)
  (hash : string) : M User.t :=
  log_query UserCreate ;;
  fun w =>
    let u := User.mk (nextId w) name email lastLogin role hash in
    (Ok u, mkWorld (users w ++ [u]) (options w) (nextId w + 1) (queries w)
             (outbox w) (console w)).

Definition set_fields (email name hash : string) (u : User.t) : User.t :=
  User.mk (User.id u) name email (User.lastLogin u) (User.role u) hash.

Fixpoint update_row (id : Z) (f : User.t -> User.t) (l : list User.t)
  : list User.t :=
  match l with
  | [] => []
  | u :: l' => if (User.id u =? id)%Z then f u :: l' else u :: update_row id f l'
  end.

(** [user.update({ where: { id }, data })]: rewrites the row with this id
    and returns it; throws when there is none. *)
Definition user_update (id : Z) (f : User.t -> User.t) : M User.t :=
  log_query (UserUpdate id) ;;
  fun w =>
    match find (fun u => (User.id u =? id)%Z) (users w) with
    | Some u =>
        (Ok (f u), mkWorld (update_row id f (users w)) (options w) (nextId w)
                     (queries w) (outbox w) (console w))
    | None => (Throw RecordNotFound, w)
    end.

End prisma.


(** ** The libraries and helpers the router calls

    [bcryptjs], [jsonwebtoken], [zod]'s e-mail check, [ejs] and the mail
    helpers of [~/utils/mail] are not part of the embedded sources; the router
    is parameterised by them.  A function that may throw returns an [option]
    or a [bool]. *)

Class Libs : Type := {
  (** [bcrypt.hashSync(password, 10)], as a function of the salt drawn *)
  bcrypt_hashSync : string -> string -> string;
  (** [bcrypt.compareSync(password, hash)] *)
  bcrypt_compareSync : string -> string -> bool;
  (** [jwt.sign(claims, secret, { expiresIn: "15m" })] at a given time;
      [None] when it throws *)
  jwt_sign : Claims.t -> string -> Z -> option string;
  (** [jwt.decode(token)]; [None] is [null] *)
  jwt_decode : string -> option Claims.t;
  (** [jwt.verify(token, secret)] at a given time; [false] when it throws *)
  jwt_verify : string -> string -> Z -> bool;
  (** [z.string().email()] *)
  z_email : string -> bool;
  (** [JSON.parse(await ejs.render(JSON.stringify(template), variables))];
      [None] when one of them throws *)
  ejs_render : Template.t -> list (string * string) -> option Template.t;
  (** [JSON.parse] on an error message; [None] when it throws *)
  JSON_parse : string -> option string;
  Transporter : Type;
  createTransporter : option GlobalOptions.t -> Transporter;
  (** [sendEmail(transporter, mailOptions)]; [false] when it rejects *)
  sendEmail : Transporter -> MailOptions.t -> bool;
  (** [notificationTemplate()] and [forgotPasswordTemplate()], the built-in
      templates *)
  notificationTemplate : Template.t;
  forgotPasswordTemplate : Template.t
}.

(** Modelled from the spec: [throwError] of [~/server/helpers/errorHandler]
    is not among the sources.  It raises a failure that carries the message
    it is given; the spec classes the failures raised through it as
    [BAD_REQUEST]. *)
Definition throwError {A} (message : string) : M A :=
  throw (TRPCError BAD_REQUEST message).

(** ** Inputs and their zod schemas *)

Module RawRegister.
Record t : Type := mk {
  email : option string;
  password : option string;
  name : option string
}.
End RawRegister.

Module RegisterInput.
Record t : Type := mk { email : string; password : string; name : string }.
End RegisterInput.

(** The input of [update], before and after parsing: every field is
    optional. *)
Module UpdateInput.
Record t : Type := mk {
  email : option string;
  password : option string;
  newPassword : option string;
  repeatNewPassword : option string;
  name : option string
}.
End UpdateInput.

Module RawChangePassword.
Record t : Type := mk {
  token : option string;
  password : option string;
  newPassword : option string
}.
End RawChangePassword.

Module ChangePasswordInput.
Record t : Type := mk { token : string; password : string; newPassword : string }.
End ChangePasswordInput.

(** The session of a protected procedure: [ctx.session.user.id]. *)
Module Session.
Record t : Type := mk { user_id : Z }.
End Session.

(** [schema.transform(f).optional()]: an absent field stays absent, a present
    one is checked and transformed.  The outer [None] is a rejected input. *)
Definition optional (check : string -> bool) (transform : string -> string)
  (o : option string) : option (option string) :=
  match o with
  | None => Some None
  | Some s => if check s then Some (Some (transform s)) else None
  end.

Definition dquote : string := String (ascii_of_nat 34) EmptyString.

(** The request, the response and the behaviour of the REST endpoint
    [POST /api/v1/users]. *)

Module Request.
Record t : Type := mk {
  method : string;
  x_zt1_auth : option string;     (* req.headers["x-zt1-auth"] *)
  body : RawRegister.t
}.
End Request.

Inductive Body : Type :=
| BodyResult (v : value)          (* the value register returned *)
| BodyCause (parsedErrors : string)
| BodyError (error : string)
| BodyMessage (message : string).

Inductive Response : Type :=
| End_ (status : Z)               (* res.status(n).end() *)
| Json (status : Z) (b : Body).   (* res.status(n).json(b) *)

(** What the REST handler does with a request: it answers at once, or it calls
    [caller.auth.register] and answers from the outcome. *)
Inductive Handling : Type :=
| Respond (r : Response)
| CallRegister (input : RawRegister.t) (k : result value -> Response).

Definition verifyApiKey (key : string) : bool := key =? "secret".

(** [getHTTPStatusCodeFromError] of tRPC. *)
Definition getHTTPStatusCodeFromError (c : trpc_code) : Z :=
  match c with
  | BAD_REQUEST => 400
  | NOT_FOUND => 404
  | INTERNAL_SERVER_ERROR => 500
  end.

Section Router.

Context {L : Libs}.

(** [z.string().email().transform((val) => val.trim())] *)
Definition email_schema (o : option string) : option string :=
  match o with
  | Some s => if z_email s then Some (Js.trim s) else None
  | None => None
  end.

Definition register_input (raw : RawRegister.t) : option RegisterInput.t :=
  match email_schema (RawRegister.email raw),
        RawRegister.password raw, RawRegister.name raw with
  | Some email, Some password, Some name =>
      if passwordSchema password
         && (3 <=? String.length name)%nat && (String.length name <=? 40)%nat
      then Some (RegisterInput.mk email password name)
      else None
  | _, _, _ => None
  end.

Definition update_input (raw : UpdateInput.t) : option UpdateInput.t :=
  match optional z_email Js.trim (UpdateInput.email raw),
        optional passwordSchema Js.trim (UpdateInput.password raw),
        optional passwordSchema Js.trim (UpdateInput.newPassword raw),
        optional passwordSchema Js.trim (UpdateInput.repeatNewPassword raw),
        optional (fun s => Js.truthy s && (String.length s <=? 40)%nat)
          (fun s => s) (UpdateInput.name raw) with
  | Some email, Some password, Some newPassword, Some repeatNewPassword,
    Some name =>
      Some (UpdateInput.mk email password newPassword repeatNewPassword name)
  | _, _, _, _, _ => None
  end.

Definition passwordResetLink_input (raw : option string) : option string :=
  email_schema raw.

Definition changePasswordFromJwt_input (raw : RawChangePassword.t)
  : option ChangePasswordInput.t :=
  match RawChangePassword.token raw, RawChangePassword.password raw,
        RawChangePassword.newPassword raw with
  | Some token, Some password, Some newPassword =>
      if passwordSchema password && passwordSchema newPassword
      then Some (ChangePasswordInput.mk token password newPassword)
      else None
  | _, _, _ => None
  end.

(** [procedure.input(schema).mutation(handler)] *)
Definition procedure {R I : Type} (schema : R -> option I)
  (handler : I -> M value) (raw : R) : M value :=
  match schema raw with
  | Some input => handler input
  | None => throw InputError
  end.

(** ** register *)

(** The notification mail to one administrator; a failed delivery is logged
    and skipped. *)
Definition notify_admin (globalOptions : GlobalOptions.t)
  (template : Template.t) (transporter : Transporter)
  (name email : string) (adminEmail : User.t) : M unit :=
  match ejs_render template
          [("toName", User.name adminEmail);
           ("notificationMessage",
            "A new user with the name " ++ name ++ " and email " ++ email
            ++ " has just registered!")] with
  | None => throw RenderError
  | Some parsedTemplate =>
      let mailOptions :=
        MailOptions.mk (GlobalOptions.smtpEmail globalOptions)
          (User.email adminEmail)
          (Template.subject parsedTemplate) (Template.body parsedTemplate) in
      if sendEmail transporter mailOptions
      then fun w => (Ok tt, mkWorld (users w) (options w) (nextId w)
                              (queries w) (mailOptions :: outbox w) (console w))
      else console_error MailError
  end.

Definition register_mutation (env : Env) (input : RegisterInput.t) : M value :=
  let email := RegisterInput.email input in
  let password := RegisterInput.password input in
  let name := RegisterInput.name input in
  settings <- prisma.globalOptions_findFirst ;;
  match settings with
  | None => throw TypeError
  | Some settings =>
      throw_if (negb (GlobalOptions.enableRegistration settings))
        (TRPCError BAD_REQUEST
           "Registration is disabled! Please contact the administrator.") ;;
      if negb (Js.truthy email) then ret (VError "Email required!") else
      (* z.string().nonempty().parse(email) hands a non-empty email back *)
      registerUser <- prisma.user_findFirst_email email ;;
      throw_if (match registerUser with Some _ => true | None => false end)
        (TRPCError NOT_FOUND
           ("email " ++ dquote ++ email ++ dquote ++ " already taken")) ;;
      throw_if (Js.truthy password && negb (test mediumPassword password))
        (TRPCError BAD_REQUEST "Password does not meet the requirements!") ;;
      let hash := bcrypt_hashSync password (salt env) in
      userCount <- prisma.user_count ;;
      newUser <- prisma.user_create name email (now env)
                   (if (userCount =? 0)%Z then ADMIN else USER) hash ;;
      globalOptions <- prisma.globalOptions_findFirst ;;
      match globalOptions with
      | Some go =>
          if GlobalOptions.userRegistrationNotification go then
            let template :=
              match GlobalOptions.notificationTemplate go with
              | Some t => t
              | None => notificationTemplate
              end in
            adminUsers <- prisma.user_findMany_role ADMIN ;;
            let transporter := createTransporter globalOptions in
            for_each adminUsers (notify_admin go template transporter name email)
          else ret tt
      | None => ret tt
      end ;;
      ret (VRegistered newUser)
  end.

Definition register (env : Env) : RawRegister.t -> M value :=
  procedure register_input (register_mutation env).

(** ** me *)

Definition me (session : Session.t) : M value :=
  prisma.user_findFirst_id (Session.user_id session) ;;
  ret VUndefined.

(** ** update *)

(** The value of a field that the guards before have found truthy. *)
Definition str (o : option string) : string :=
  match o with Some s => s | None => EmptyString end.

Definition update_mutation (env : Env) (session : Session.t)
  (input : UpdateInput.t) : M value :=
  let newPassword := UpdateInput.newPassword input in
  let repeatNewPassword := UpdateInput.repeatNewPassword input in
  let password := UpdateInput.password input in
  user <- prisma.user_findFirst_id (Session.user_id session) ;;
  match user with
  | None => throw (TRPCError NOT_FOUND "User not found!")
  | Some user =>
      (if Js.truthy_opt newPassword || Js.truthy_opt repeatNewPassword
          || Js.truthy_opt password
       then
         throw_if (negb (Js.truthy_opt newPassword)
                   || negb (Js.truthy_opt repeatNewPassword)
                   || negb (Js.truthy_opt password))
           (TRPCError BAD_REQUEST "Please fill all fields!") ;;
         throw_if (negb (test mediumPassword (str newPassword)))
           (TRPCError BAD_REQUEST "Password does not meet the requirements!") ;;
         throw_if (negb (bcrypt_compareSync (str password) (User.hash user)))
           (TRPCError BAD_REQUEST "Old password is incorrect!") ;;
         throw_if (negb (str newPassword =? str repeatNewPassword))
           (TRPCError BAD_REQUEST "Passwords do not match!")
       else ret tt) ;;
      prisma.user_update (User.id user)
        (prisma.set_fields
           (Js.or_else (UpdateInput.email input) (User.email user))
           (Js.or_else (UpdateInput.name input) (User.name user))
           (if Js.truthy_opt newPassword
            then bcrypt_hashSync (str newPassword) (salt env)
            else User.hash user)) ;;
      ret VUndefined
  end.

Definition update (env : Env) (session : Session.t) : UpdateInput.t -> M value :=
  procedure update_input (update_mutation env session).

(** ** passwordResetLink *)

Definition passwordResetLink_mutation (env : Env) (email : string) : M value :=
  (if negb (Js.truthy email) then throwError "Email is required!" else ret tt) ;;
  user <- prisma.user_findFirst_email (Js.toLowerCase email) ;;
  match user with
  | None => ret (VString "Mail sent if email exist!")
  | Some user =>
      match jwt_sign (Claims.mk (Some (User.id user)) (Some (User.email user)))
              (User.hash user) (now env) with
      | None => throw JwtError
      | Some validationToken =>
          let forgotLink :=
            NEXTAUTH_URL env ++ "/login/forgotpassword?token=" ++ validationToken in
          globalOptions <- prisma.globalOptions_findFirst ;;
          let template :=
            match globalOptions with
            | Some go =>
                match GlobalOptions.forgotPasswordTemplate go with
                | Some t => t
                | None => forgotPasswordTemplate
                end
            | None => forgotPasswordTemplate
            end in
          match ejs_render template
                  [("toEmail", email); ("forgotLink", forgotLink)] with
          | None => throw RenderError
          | Some parsedTemplate =>
              let transporter := createTransporter globalOptions in
              match globalOptions with
              | None => throw TypeError
              | Some go =>
                  let mailOptions :=
                    MailOptions.mk (GlobalOptions.smtpEmail go) email
                      (Template.subject parsedTemplate)
                      (Template.body parsedTemplate) in
                  if sendEmail transporter mailOptions
                  then fun w =>
                         (Ok VUndefined,
                          mkWorld (users w) (options w) (nextId w) (queries w)
                            (mailOptions :: outbox w) (console w))
                  else throw MailError
              end
          end
      end
  end.

Definition passwordResetLink (env : Env) : option string -> M value :=
  procedure passwordResetLink_input (passwordResetLink_mutation env).

(** ** changePasswordFromJwt *)

(** [!id] on a possibly-undefined number. *)
Definition falsy_id (id : option Z) : bool :=
  match id with Some n => (n =? 0)%Z | None => true end.

Definition num (id : option Z) : Z :=
  match id with Some n => n | None => 0%Z end.

(** The body of the try block. *)
Definition changePasswordFromJwt_try (env : Env) (token password : string)
  : M value :=
  match jwt_decode token with
  | None => throw TypeError
  | Some claims =>
      let id := Claims.id claims in
      (if falsy_id id then throwError "This link is not valid!" else ret tt) ;;
      user <- prisma.user_findFirst_id (num id) ;;
      match user with
      | None => throwError "Something went wrong!"
      | Some user =>
          (if negb (Js.truthy (User.hash user))
           then throwError "Something went wrong!" else ret tt) ;;
          throw_if (negb (jwt_verify token (User.hash user) (now env)))
            JwtError ;;
          updated <- prisma.user_update (num id)
                       (fun u => prisma.set_fields (User.email u) (User.name u)
                                   (bcrypt_hashSync password (salt env)) u) ;;
          ret (VUser updated)
      end
  end.

Definition changePasswordFromJwt_mutation (env : Env)
  (input : ChangePasswordInput.t) : M value :=
  let token := ChangePasswordInput.token input in
  let password := ChangePasswordInput.password input in
  let newPassword := ChangePasswordInput.newPassword input in
  (if negb (Js.truthy token) then throwError "token is required!" else ret tt) ;;
  (if negb (password =? newPassword)
   then throwError "Passwords does not match!" else ret tt) ;;
  try_catch (changePasswordFromJwt_try env token password)
    (fun error =>
       console_error error ;;
       throwError "token is not valid, please try again!").

Definition changePasswordFromJwt (env : Env) : RawChangePassword.t -> M value :=
  procedure changePasswordFromJwt_input (changePasswordFromJwt_mutation env).

(** ** The REST endpoint [POST /api/v1/users] *)

Definition createUserHandler (req : Request.t) : Handling :=
  if negb (Request.method req =? "POST") then Respond (End_ 405) else
  let apiKey := Request.x_zt1_auth req in
  if negb (Js.truthy_opt apiKey) || negb (verifyApiKey (str apiKey))
  then Respond (Json 401 (BodyError "Unauthorized"))
  else
    CallRegister (Request.body req)
      (fun outcome =>
         match outcome with
         | Ok user => Json 200 (BodyResult user)
         | Throw (TRPCError code message) =>
             let httpCode := getHTTPStatusCodeFromError code in
             match JSON_parse message with
             | Some parsedErrors => Json httpCode (BodyCause parsedErrors)
             | None => Json httpCode (BodyError message)
             end
         | Throw _ => Json 500 (BodyMessage "Internal server error")
         end).

End Router.

(** ** A small executable instance of the libraries

    Stand-ins that compute, for running the router on concrete requests.
    A hash is the salt, a dollar sign and the password; a token is one code
    unit for the user id followed by the signing secret (the code unit 0
    stands for a payload without id); every string with an at-sign is an
    e-mail address; templates are rendered as they are; every mail is
    delivered. *)

Module Toy.

Definition hashSync (password salt : string) : string :=
  salt ++ "$" ++ password.

Fixpoint after_dollar (h : string) : option string :=
  match h with
  | EmptyString => None
  | String a h' => if (Js.code a =? 36)%nat then Some h' else after_dollar h'
  end.

Definition compareSync (password hash : string) : bool :=
  match after_dollar hash with
  | Some p => p =? password
  | None => false
  end.

Definition sign (c : Claims.t) (secret : string) (_ : Z) : option string :=
  match Claims.id c with
  | Some z =>
      if ((0 <? z)%Z && (z <? 256)%Z && Js.truthy secret)%bool
      then Some (String (ascii_of_nat (Z.to_nat z)) secret)
      else None
  | None => None
  end.

Definition decode (token : string) : option Claims.t :=
  match token with
  | EmptyString => None
  | String a _ =>
      if (Js.code a =? 0)%nat then Some (Claims.mk None None)
      else Some (Claims.mk (Some (Z.of_nat (Js.code a))) None)
  end.

Definition verify (token secret : string) (_ : Z) : bool :=
  match token with
  | EmptyString => false
  | String _ signed => signed =? secret
  end.

Definition email (s : string) : bool :=
  Js.exists_char (fun a => (Js.code a =? 64)%nat) s.

Definition libs : Libs := {|
  bcrypt_hashSync := hashSync;
  bcrypt_compareSync := compareSync;
  jwt_sign := sign;
  jwt_decode := decode;
  jwt_verify := verify;
  z_email := email;
  ejs_render := fun t _ => Some t;
  JSON_parse := fun _ => None;
  Transporter := unit;
  createTransporter := fun _ => tt;
  sendEmail := fun _ _ => true;
  notificationTemplate := Template.mk "New user" "A new user has registered";
  forgotPasswordTemplate := Template.mk "Reset" "Follow the link"
|}.

Definition env : Env := mkEnv 1000 "s1" "http://localhost:3000".

Definition options : GlobalOptions.t :=
  GlobalOptions.mk true false None None "noreply@x.com".

Definition ann : User.t :=
  User.mk 1 "Ann" "a@x.com" 0 ADMIN (hashSync "Abc123" "s0").

Definition world : World := mkWorld [ann] (Some options) 2 [] [] [].

End Toy.

(** ** Vocabulary of the statements *)

(** The code units before the first line terminator. *)
Fixpoint first_line (s : string) : string :=
  match s with
  | EmptyString => EmptyString
  | String a s' => if dot a then String a (first_line s') else EmptyString
  end.

Definition b2n (b : bool) : nat := if b then 1 else 0.

(** How many of the three character classes (lowercase, uppercase, digit)
    occur in a candidate. *)
Definition classes (s : string) : nat :=
  b2n (Js.exists_char lower s) + b2n (Js.exists_char upper s)
  + b2n (Js.exists_char digit s).

(** A field of a request is supplied when the request carries it. *)
Definition supplied (o : option string) : bool :=
  match o with Some _ => true | None => false end.

(** The rows of two tables agree except for the row [u], which became [u']. *)
Definition only_row_changed (before after : list User.t) (u u' : User.t) : Prop :=
  exists l1 l2 : list User.t,
    before = (l1 ++ u :: l2)%list /\ after = (l1 ++ u' :: l2)%list.

(** What a step leaves alone in the database. *)
Definition same_tables (w w' : World) : Prop :=
  users w' = users w /\ options w' = options w /\ nextId w' = nextId w.

(** A computation keeps a relation between the world before and after. *)
Definition preserves (R : World -> World -> Prop) {A} (m : M A) : Prop :=
  forall w, R w (snd (m w)).


(** One call of a procedure of the router, whatever its outcome. *)
Inductive step {L : Libs} (w w' : World) : Prop :=
| step_register env raw r :
    register env raw w = (r, w') -> step w w'
| step_me session r :
    me session w = (r, w') -> step w w'
| step_update env session raw r :
    update env session raw w = (r, w') -> step w w'
| step_passwordResetLink env raw r :
    passwordResetLink env raw w = (r, w') -> step w w'
| step_changePasswordFromJwt env raw r :
    changePasswordFromJwt env raw w = (r, w') -> step w w'.

(** Any number of calls, one after the other. *)
Inductive steps {L : Libs} : World -> World -> Prop :=
| steps_refl w : steps w w
| steps_step w1 w2 w3 : step w1 w2 -> steps w2 w3 -> steps w1 w3.

(** The world after one more database call has been recorded. *)
Definition logged (q : Query) (w : World) : World :=
  mkWorld (users w) (options w) (nextId w) (q :: queries w)
    (outbox w) (console w).

(** A line feed between two strings. *)
Definition LF : string := String (ascii_of_nat 10) EmptyString.

(** The documented policy: two of the three classes, and six code units. *)
Definition policy (s : string) : bool :=
  (2 <=? classes s)%nat && (6 <=? String.length s)%nat.

(** ** More of the executable instance and of the vocabulary *)

(** The executable instance with another template renderer and another
    mail transport. *)
Definition toy_with
  (render : Template.t -> list (string * string) -> option Template.t)
  (send : MailOptions.t -> bool) : Libs := {|
  bcrypt_hashSync := Toy.hashSync;
  bcrypt_compareSync := Toy.compareSync;
  jwt_sign := Toy.sign;
  jwt_decode := Toy.decode;
  jwt_verify := Toy.verify;
  z_email := Toy.email;
  ejs_render := render;
  JSON_parse := fun _ => None;
  Transporter := unit;
  createTransporter := fun _ => tt;
  sendEmail := fun _ m => send m;
  notificationTemplate := Template.mk "New user" "A new user has registered";
  forgotPasswordTemplate := Template.mk "Reset" "Follow the link"
|}.

(** An installation that notifies its two administrators of registrations. *)
Definition notifying_options : GlobalOptions.t :=
  GlobalOptions.mk true true None None "noreply@x.com".

Definition zoe : User.t :=
  User.mk 2 "Zoe" "z@x.com" 0 ADMIN (Toy.hashSync "Zoe123" "s0").

Definition notifying_world : World :=
  mkWorld [Toy.ann; zoe] (Some notifying_options) 3 [] [] [].

(** The status of a response. *)
Definition status (r : Response) : Z :=
  match r with End_ s => s | Json s _ => s end.

(** The response of the REST handler to a request, given the outcome of the
    register call it makes, if it makes one. *)
Definition respond {L : Libs} (req : Request.t) (outcome : result value)
  : Response :=
  match createUserHandler req with
  | Respond r => r
  | CallRegister _ k => k outcome
  end.

(** Who is what: the id and the role of every row, in table order. *)
Definition privileges (w : World) : list (Z * Role) :=
  map (fun u => (User.id u, User.role u)) (users w).

(** Rows may have been appended, but no row changed its id or its role, and
    unless the table was empty the new rows are plain users. *)
Definition privileges_kept (w w' : World) : Prop :=
  exists added : list (Z * Role),
    privileges w' = (privileges w ++ added)%list
    /\ (users w <> [] -> Forall (fun p => snd p = USER) added).

(** Nothing but the log of database calls differs between two worlds. *)
Definition only_logged (w w' : World) : Prop :=
  same_tables w w' /\ outbox w' = outbox w /\ console w' = console w.

(** The administrators of a table. *)
Definition admins (l : list User.t) : list User.t :=
  filter (fun u => Role_eqb (User.role u) ADMIN) l.


(** * Properties *)

(** ** The password policy *)

Lemma class_chars_are_dot (lo hi : nat) (a : ascii) :
  (14 <= lo)%nat -> range lo hi a = true -> dot a = true.
Proof.
  unfold range, dot, Js.is_line_terminator. intros Hlo H.
  apply andb_true_iff in H as [H1 _]. apply Nat.leb_le in H1.
  apply negb_true_iff, orb_false_iff. split; apply Nat.eqb_neq; lia.
Qed.

Lemma lower_dot a : lower a = true -> dot a = true.
Proof. apply class_chars_are_dot. lia. Qed.

Lemma upper_dot a : upper a = true -> dot a = true.
Proof. apply class_chars_are_dot. lia. Qed.

Lemma digit_dot a : digit a = true -> dot a = true.
Proof. apply class_chars_are_dot. lia. Qed.

(** [.*c] from any position: some code unit of the class on the current
    line. *)
Lemma star_dot_cls (c : ascii -> bool) :
  (forall a, c a = true -> dot a = true) ->
  forall s bos,
    star dot bos s (fun b t => rmatch (Cls c) b t accept)
    = Js.exists_char c (first_line s).
Proof.
  intros Hc s. induction s as [|a s IH]; intros bos; simpl.
  - reflexivity.
  - destruct (dot a) eqn:Hd; simpl.
    + rewrite IH. unfold accept. rewrite andb_true_r. apply orb_comm.
    + unfold accept. rewrite andb_true_r.
      destruct (c a) eqn:Hca; [|reflexivity].
      apply Hc in Hca. congruence.
Qed.

Lemma ahead_spec (c : ascii -> bool) (bos : bool) (s : string) (k : cont) :
  (forall a, c a = true -> dot a = true) ->
  rmatch (ahead c) bos s k = Js.exists_char c (first_line s) && k bos s.
Proof.
  intros Hc. unfold ahead. simpl. now rewrite (star_dot_cls c Hc).
Qed.

Lemma star_accept (p : ascii -> bool) (s : string) (bos : bool) :
  star p bos s accept = true.
Proof.
  revert bos. induction s as [|a s IH]; intros bos; simpl; [reflexivity|].
  destruct (p a); [|reflexivity]. now rewrite IH.
Qed.

Lemma at_least_dot (n : nat) :
  forall s bos,
    at_least n dot bos s accept = (n <=? String.length (first_line s))%nat.
Proof.
  induction n as [|n IH]; intros s bos; simpl.
  - apply star_accept.
  - destruct s as [|a s]; simpl; [reflexivity|].
    destruct (dot a); simpl; [apply IH | reflexivity].
Qed.

Lemma two_of_three (l u d : bool) :
  (l && u) || ((l && d) || (u && d)) = (2 <=? b2n l + b2n u + b2n d)%nat.
Proof. now destruct l, u, d. Qed.

Lemma mediumPassword_match (bos : bool) (s : string) :
  rmatch mediumPassword bos s accept = bos && policy (first_line s).
Proof.
  unfold mediumPassword, policy, classes.
  cbn [rmatch]. fold (ahead lower) (ahead upper) (ahead digit).
  rewrite !(ahead_spec lower), !(ahead_spec upper), !(ahead_spec digit)
    by first [exact lower_dot | exact upper_dot | exact digit_dot].
  rewrite at_least_dot, <- two_of_three. unfold accept.
  destruct bos, (Js.exists_char lower (first_line s)),
    (Js.exists_char upper (first_line s)),
    (Js.exists_char digit (first_line s)),
    (6 <=? String.length (first_line s))%nat; reflexivity.
Qed.

Lemma mediumPassword_not_later (s : string) :
  search mediumPassword false s = false.
Proof.
  induction s as [|a s IH]; cbn [search]; rewrite mediumPassword_match; simpl.
  - reflexivity.
  - exact IH.
Qed.

(** The regular expression decides the documented policy on the first line
    of the candidate. *)
Lemma mediumPassword_test (s : string) :
  test mediumPassword s = policy (first_line s).
Proof.
  unfold test. destruct s as [|a s]; cbn [search];
    rewrite mediumPassword_match; simpl.
  - reflexivity.
  - rewrite mediumPassword_not_later. apply orb_false_r.
Qed.

Lemma first_line_length (s : string) :
  (String.length (first_line s) <= String.length s)%nat.
Proof.
  induction s as [|a s IH]; simpl; [lia|]. destruct (dot a); simpl; lia.
Qed.

Lemma first_line_exists (c : ascii -> bool) (s : string) :
  Js.exists_char c (first_line s) = true -> Js.exists_char c s = true.
Proof.
  induction s as [|a s IH]; simpl; [easy|].
  destruct (dot a); simpl; [|discriminate].
  intros H. apply orb_true_iff in H as [H|H]; apply orb_true_iff; auto.
Qed.

Lemma first_line_classes (s : string) :
  (classes (first_line s) <= classes s)%nat.
Proof.
  unfold classes.
  assert (mono : forall c, (b2n (Js.exists_char c (first_line s))
                            <= b2n (Js.exists_char c s))%nat).
  { intros c. destruct (Js.exists_char c (first_line s)) eqn:E.
    - now rewrite (first_line_exists c s E).
    - simpl. lia. }
  pose proof (mono lower). pose proof (mono upper). pose proof (mono digit).
  lia.
Qed.

Lemma first_line_whole (s : string) :
  Js.exists_char Js.is_line_terminator s = false -> first_line s = s.
Proof.
  induction s as [|a s IH]; simpl; [reflexivity|].
  intros H. apply orb_false_iff in H as [Ha Hs].
  unfold dot. rewrite Ha. simpl. now rewrite IH.
Qed.

(** Candidates shorter than six code units are rejected. *)
Lemma passwordSchema_short (s : string) :
  (String.length s < 6)%nat -> passwordSchema s = false.
Proof.
  intros H. unfold passwordSchema. rewrite mediumPassword_test. unfold policy.
  pose proof (first_line_length s).
  replace (6 <=? String.length (first_line s))%nat with false
    by (symmetry; apply Nat.leb_gt; lia).
  now rewrite !andb_false_r.
Qed.

(** Candidates with at most one of the three classes are rejected. *)
Lemma passwordSchema_one_class (s : string) :
  (classes s <= 1)%nat -> passwordSchema s = false.
Proof.
  intros H. unfold passwordSchema. rewrite mediumPassword_test. unfold policy.
  pose proof (first_line_classes s).
  replace (2 <=? classes (first_line s))%nat with false
    by (symmetry; apply Nat.leb_gt; lia).
  now rewrite andb_false_r.
Qed.

(** Candidates longer than forty code units are rejected. *)
Lemma passwordSchema_long (s : string) :
  (40 < String.length s)%nat -> passwordSchema s = false.
Proof.
  intros H. unfold passwordSchema.
  replace (String.length s <=? 40)%nat with false
    by (symmetry; apply Nat.leb_gt; lia).
  now rewrite andb_false_r.
Qed.

(** Candidates of six to forty code units with two of the three classes are
    accepted, as long as they hold no line terminator. *)
Lemma passwordSchema_accepts (s : string) :
  (6 <= String.length s <= 40)%nat ->
  (2 <= classes s)%nat ->
  Js.exists_char Js.is_line_terminator s = false ->
  passwordSchema s = true.
Proof.
  intros [Hlo Hhi] Hc Hnl. unfold passwordSchema.
  rewrite mediumPassword_test, (first_line_whole s Hnl). unfold policy.
  apply Nat.leb_le in Hlo as Hlo', Hhi, Hc. rewrite Hlo', Hhi, Hc.
  destruct s; [simpl in Hlo; lia | reflexivity].
Qed.

(** Whatever the schema accepts meets the documented policy. *)
Lemma passwordSchema_sound (s : string) :
  passwordSchema s = true ->
  (6 <= String.length s <= 40)%nat /\ (2 <= classes s)%nat.
Proof.
  intros H.
  destruct (Nat.lt_ge_cases (String.length s) 6) as [Hs|Hs];
    [rewrite (passwordSchema_short s Hs) in H; discriminate|].
  destruct (Nat.lt_ge_cases 40 (String.length s)) as [Hl|Hl];
    [rewrite (passwordSchema_long s Hl) in H; discriminate|].
  destruct (Nat.lt_ge_cases (classes s) 2) as [Hc|Hc];
    [rewrite (passwordSchema_one_class s) in H by lia; discriminate|].
  lia.
Qed.

(** C4.  The classifier rejects candidates shorter than six or longer than
    forty code units and candidates with at most one class, but it does not
    accept every candidate of six to forty code units with two classes: the
    eight code units Abc, line feed, 1234 hold all three classes and are
    rejected, because [.] of the regular expression stops at the line feed. *)
Theorem passwordSchema_rejects_two_class_candidate :
  let candidate := "Abc" ++ LF ++ "1234" in
  String.length candidate = 8%nat
  /\ classes candidate = 3%nat
  /\ test mediumPassword candidate = false
  /\ passwordSchema candidate = false.
Proof. vm_compute. repeat split; reflexivity. Qed.

(** ** The request monad *)

Lemma bind_ok {A B} (m : M A) (f : A -> M B) (w w' : World) (b : B) :
  bind m f w = (Ok b, w') ->
  exists a w1, m w = (Ok a, w1) /\ f a w1 = (Ok b, w').
Proof.
  unfold bind. destruct (m w) as [[a|e] w1]; intros H.
  - now exists a, w1.
  - discriminate.
Qed.

Lemma throw_if_ok (c : bool) (e : exn) (w w' : World) :
  throw_if c e w = (Ok tt, w') -> c = false /\ w' = w.
Proof.
  destruct c; simpl; unfold throw, ret; intros H; [discriminate|].
  injection H as <-. auto.
Qed.

Lemma same_tables_refl (w : World) : same_tables w w.
Proof. unfold same_tables; auto. Qed.

Lemma same_tables_trans (w1 w2 w3 : World) :
  same_tables w1 w2 -> same_tables w2 w3 -> same_tables w1 w3.
Proof. unfold same_tables. intuition congruence. Qed.




(** Preservation of a preorder on worlds through the combinators. *)
Section Preserve.

Variable R : World -> World -> Prop.
Hypothesis R_refl : forall w, R w w.
Hypothesis R_trans : forall w1 w2 w3, R w1 w2 -> R w2 w3 -> R w1 w3.

Lemma preserves_ret {A} (a : A) : preserves R (ret a).
Proof. intros w. apply R_refl. Qed.

Lemma preserves_throw {A} (e : exn) : preserves R (@throw A e).
Proof. intros w. apply R_refl. Qed.

Lemma preserves_throw_if (c : bool) (e : exn) : preserves R (throw_if c e).
Proof. destruct c; [apply preserves_throw | apply preserves_ret]. Qed.

Lemma preserves_bind {A B} (m : M A) (f : A -> M B) :
  preserves R m -> (forall a, preserves R (f a)) -> preserves R (bind m f).
Proof.
  intros Hm Hf w. unfold bind. specialize (Hm w).
  destruct (m w) as [[a|e] w1]; simpl in *.
  - eapply R_trans; [exact Hm | apply Hf].
  - exact Hm.
Qed.



End Preserve.

Section Facts.

Context {L : Libs}.

(** ** me *)

(** C10.  For every session, [me] makes the user lookup, by the id of the
    session, and returns undefined: the row it looked up is not handed to the
    caller, and nothing else in the world changes. *)
Theorem me_returns_undefined (session : Session.t) (w : World) :
  me session w
  = (Ok VUndefined, logged (UserFindFirstById (Session.user_id session)) w).
Proof. reflexivity. Qed.

(** ** The REST endpoint *)

Lemma verifyApiKey_secret (key : string) :
  verifyApiKey key = true <-> key = "secret".
Proof. unfold verifyApiKey. apply String.eqb_eq. Qed.

Lemma apiKey_gate (apiKey : option string) :
  negb (Js.truthy_opt apiKey) || negb (verifyApiKey (str apiKey)) = false
  <-> apiKey = Some "secret".
Proof.
  split.
  - intros H. apply orb_false_iff in H as [H1 H2].
    apply negb_false_iff in H1, H2.
    destruct apiKey as [key|]; [|discriminate].
    simpl in H2. apply verifyApiKey_secret in H2. now subst.
  - intros ->. reflexivity.
Qed.

(** C9.  The handler answers 405 to every request whose method is not POST
    and 401 to every POST whose x-zt1-auth header is missing or is not the
    string secret; it calls register only for a POST whose header is exactly
    that string, and for each of those it does, with the body of the
    request. *)
Theorem createUserHandler_gate (req : Request.t) :
  (Request.method req <> "POST" ->
   createUserHandler req = Respond (End_ 405))
  /\ (Request.method req = "POST" ->
      Request.x_zt1_auth req <> Some "secret" ->
      createUserHandler req = Respond (Json 401 (BodyError "Unauthorized")))
  /\ (forall input k,
        createUserHandler req = CallRegister input k ->
        Request.method req = "POST"
        /\ Request.x_zt1_auth req = Some "secret"
        /\ input = Request.body req)
  /\ (Request.method req = "POST" ->
      Request.x_zt1_auth req = Some "secret" ->
      exists k, createUserHandler req = CallRegister (Request.body req) k).
Proof.
  unfold createUserHandler.
  destruct (Request.method req =? "POST") eqn:Hm; simpl.
  - apply String.eqb_eq in Hm.
    destruct (negb (Js.truthy_opt (Request.x_zt1_auth req))
              || negb (verifyApiKey (str (Request.x_zt1_auth req)))) eqn:Hk.
    + assert (Hne : Request.x_zt1_auth req <> Some "secret").
      { intros E. apply apiKey_gate in E. congruence. }
      split; [congruence|]. split; [reflexivity|].
      split; [discriminate | contradiction].
    + apply apiKey_gate in Hk.
      split; [congruence|]. split; [congruence|]. split.
      * intros input k H. now injection H as <- _.
      * intros _ _. eexists. reflexivity.
  - apply String.eqb_neq in Hm.
    split; [reflexivity|]. split; [contradiction|].
    split; [discriminate | contradiction].
Qed.

(** ** register *)

Lemma notify_admin_tables go template tr name email admin :
  preserves same_tables (notify_admin go template tr name email admin).
Proof.
  intros w. unfold notify_admin.
  destruct (ejs_render _ _); [|apply same_tables_refl].
  destruct (sendEmail _ _); unfold same_tables; simpl; auto.
Qed.




(** ** The router never shrinks the user table *)















(** A registration under an e-mail that a row holds, code unit for code
    unit, is refused, and no row is created. *)
Lemma register_rejects_same_email env input w settings u0 :
  options w = Some settings ->
  GlobalOptions.enableRegistration settings = true ->
  Js.truthy (RegisterInput.email input) = true ->
  find (fun x => User.email x =? RegisterInput.email input) (users w) = Some u0 ->
  register_mutation env input w
  = (Throw (TRPCError NOT_FOUND
              ("email " ++ dquote ++ RegisterInput.email input ++ dquote
               ++ " already taken")),
     logged (UserFindFirstByEmail (RegisterInput.email input))
       (logged GlobalOptionsFindFirst w)).
Proof.
  intros Hopt Hen Ht Hfind.
  unfold register_mutation, bind. simpl.
  rewrite Hopt, Hen. simpl. rewrite Ht. simpl. rewrite Hfind. simpl.
  unfold logged. simpl. rewrite Hopt. reflexivity.
Qed.

(** With registration enabled and Ann registered as a@x.com, the
    registration of A@x.com, which is Ann's address up to letter case, is not
    refused: it returns the new user and appends a second row.  The lookup
    of register compares the e-mail as it was typed, while the lookup of
    [passwordResetLink] lowers it first. *)
Lemma register_accepts_email_differing_in_case (env : Env) :
  let input := RegisterInput.mk "A@x.com" "Abc123" "Bob" in
  let bob := User.mk 2 "Bob" "A@x.com" (now env) USER
               (bcrypt_hashSync "Abc123" (salt env)) in
  Js.toLowerCase "A@x.com" = User.email Toy.ann
  /\ fst (register_mutation env input Toy.world) = Ok (VRegistered bob)
  /\ users (snd (register_mutation env input Toy.world)) = [Toy.ann; bob].
Proof. repeat split. Qed.


(** ** update *)

Lemma class_chars_not_space (lo hi : nat) (a : ascii) :
  (33 <= lo)%nat -> (hi < 160)%nat -> range lo hi a = true ->
  Js.is_space a = false.
Proof.
  unfold range, Js.is_space. intros Hlo Hhi H.
  apply andb_true_iff in H as [H1 H2]. apply Nat.leb_le in H1, H2.
  apply orb_false_iff. split; [apply orb_false_iff; split|].
  - apply andb_false_iff. right. apply Nat.leb_gt. lia.
  - apply Nat.eqb_neq. lia.
  - apply Nat.eqb_neq. lia.
Qed.

Lemma trimStart_keeps (p : ascii -> bool) (s : string) :
  (forall a, p a = true -> Js.is_space a = false) ->
  Js.exists_char p s = true -> Js.exists_char p (Js.trimStart s) = true.
Proof.
  intros Hp. induction s as [|a s IH]; simpl; [easy|].
  intros H. destruct (Js.is_space a) eqn:Ha; [|exact H].
  apply orb_true_iff in H as [H|H]; [|auto].
  apply Hp in H. congruence.
Qed.

Lemma trimEnd_keeps (p : ascii -> bool) (s : string) :
  (forall a, p a = true -> Js.is_space a = false) ->
  Js.exists_char p s = true -> Js.exists_char p (Js.trimEnd s) = true.
Proof.
  intros Hp. induction s as [|a s IH]; simpl; [easy|].
  intros H. apply orb_true_iff in H as [H|H].
  - rewrite (Hp a H). destruct (Js.trimEnd s); simpl; now rewrite H.
  - specialize (IH H). destruct (Js.trimEnd s) as [|b t]; [discriminate|].
    change (Js.exists_char p (String a (String b t)))
      with (p a || Js.exists_char p (String b t)).
    rewrite IH. apply orb_true_r.
Qed.

Lemma exists_char_truthy (p : ascii -> bool) (s : string) :
  Js.exists_char p s = true -> Js.truthy s = true.
Proof. destruct s; [discriminate | reflexivity]. Qed.

(** A password that the schema accepts is still non-empty once trimmed. *)
Lemma passwordSchema_trim_truthy (s : string) :
  passwordSchema s = true -> Js.truthy (Js.trim s) = true.
Proof.
  intros H. apply passwordSchema_sound in H as [_ Hc]. unfold classes in Hc.
  assert (keep : forall lo hi, (33 <= lo)%nat -> (hi < 160)%nat ->
                 Js.exists_char (range lo hi) s = true ->
                 Js.truthy (Js.trim s) = true).
  { intros lo hi Hlo Hhi E. unfold Js.trim.
    apply (exists_char_truthy (range lo hi)).
    apply trimEnd_keeps, trimStart_keeps; trivial;
      intros a; now apply class_chars_not_space. }
  destruct (Js.exists_char lower s) eqn:El;
    [apply (keep 97 122)%nat; trivial; lia|].
  destruct (Js.exists_char upper s) eqn:Eu;
    [apply (keep 65 90)%nat; trivial; lia|].
  simpl in Hc. destruct (Js.exists_char digit s); simpl in Hc; lia.
Qed.

(** After parsing, a password field is truthy exactly when it was
    supplied. *)
Lemma optional_password_truthy (o o' : option string) :
  optional passwordSchema Js.trim o = Some o' ->
  Js.truthy_opt o' = supplied o.
Proof.
  destruct o as [s|]; simpl.
  - destruct (passwordSchema s) eqn:E; [|discriminate].
    intros H. injection H as <-. simpl. now apply passwordSchema_trim_truthy.
  - intros H. now injection H as <-.
Qed.

Lemma update_input_passwords raw input :
  update_input raw = Some input ->
  Js.truthy_opt (UpdateInput.password input) = supplied (UpdateInput.password raw)
  /\ Js.truthy_opt (UpdateInput.newPassword input)
     = supplied (UpdateInput.newPassword raw)
  /\ Js.truthy_opt (UpdateInput.repeatNewPassword input)
     = supplied (UpdateInput.repeatNewPassword raw).
Proof.
  unfold update_input.
  destruct (optional z_email _ _); [|discriminate].
  destruct (optional passwordSchema _ (UpdateInput.password raw)) eqn:E1;
    [|discriminate].
  destruct (optional passwordSchema _ (UpdateInput.newPassword raw)) eqn:E2;
    [|discriminate].
  destruct (optional passwordSchema _ (UpdateInput.repeatNewPassword raw)) eqn:E3;
    [|discriminate].
  destruct (optional _ _ (UpdateInput.name raw)); [|discriminate].
  intros H. injection H as <-. simpl.
  auto using optional_password_truthy.
Qed.

(** C7, as the code has it.  For every update call of a user whose row is in
    the table, in which at least one but not all of password, newPassword and
    repeatNewPassword are supplied and the whole input passes the schema, the
    call fails with the BAD_REQUEST error that asks to fill all fields, and
    nothing but the record of the lookup is added to the world: the user's
    row is unchanged. *)
Theorem update_partial_password_fields env session raw input w u :
  update_input raw = Some input ->
  find (fun x => (User.id x =? Session.user_id session)%Z) (users w) = Some u ->
  supplied (UpdateInput.password raw) || supplied (UpdateInput.newPassword raw)
  || supplied (UpdateInput.repeatNewPassword raw) = true ->
  supplied (UpdateInput.password raw) && supplied (UpdateInput.newPassword raw)
  && supplied (UpdateInput.repeatNewPassword raw) = false ->
  update env session raw w
  = (Throw (TRPCError BAD_REQUEST "Please fill all fields!"),
     logged (UserFindFirstById (Session.user_id session)) w).
Proof.
  intros Hin Hfind Hsome Hnotall.
  unfold update, procedure. rewrite Hin.
  apply update_input_passwords in Hin as (Hp & Hn & Hr).
  unfold update_mutation, bind. simpl. rewrite Hfind. simpl.
  rewrite Hp, Hn, Hr.
  destruct (supplied (UpdateInput.password raw)),
    (supplied (UpdateInput.newPassword raw)),
    (supplied (UpdateInput.repeatNewPassword raw));
    simpl in *; try discriminate; reflexivity.
Qed.


Lemma find_update_row (id : Z) (f : User.t -> User.t) (l : list User.t) (u : User.t) :
  find (fun x => (User.id x =? id)%Z) l = Some u ->
  only_row_changed l (prisma.update_row id f l) u (f u).
Proof.
  induction l as [|x l IH]; simpl; [discriminate|].
  destruct (User.id x =? id)%Z.
  - intros H. injection H as ->. now exists [], l.
  - intros H. destruct (IH H) as (l1 & l2 & E1 & E2).
    exists (x :: l1), l2. simpl. now rewrite <- E1, <- E2.
Qed.

(** What a successful update has done. *)
Lemma update_mutation_ok env session input w v w' :
  update_mutation env session input w = (Ok v, w') ->
  exists u,
    let u' :=
      User.mk (User.id u)
        (Js.or_else (UpdateInput.name input) (User.name u))
        (Js.or_else (UpdateInput.email input) (User.email u))
        (User.lastLogin u) (User.role u)
        (if Js.truthy_opt (UpdateInput.newPassword input)
         then bcrypt_hashSync (str (UpdateInput.newPassword input)) (salt env)
         else User.hash u) in
    find (fun x => (User.id x =? Session.user_id session)%Z) (users w) = Some u
    /\ only_row_changed (users w) (users w') u u'
    /\ (Js.truthy_opt (UpdateInput.email input) = false ->
        User.email u' = User.email u)
    /\ (Js.truthy_opt (UpdateInput.name input) = false ->
        User.name u' = User.name u)
    /\ (Js.truthy_opt (UpdateInput.newPassword input) = false ->
        User.hash u' = User.hash u)
    /\ (Js.truthy_opt (UpdateInput.newPassword input) = true ->
        Js.truthy_opt (UpdateInput.password input) = true
        /\ Js.truthy_opt (UpdateInput.repeatNewPassword input) = true
        /\ test mediumPassword (str (UpdateInput.newPassword input)) = true
        /\ bcrypt_compareSync (str (UpdateInput.password input)) (User.hash u)
           = true
        /\ str (UpdateInput.newPassword input)
           = str (UpdateInput.repeatNewPassword input))
    /\ options w' = options w /\ nextId w' = nextId w
    /\ outbox w' = outbox w /\ console w' = console w.
Proof.
  unfold update_mutation. intros H.
  apply bind_ok in H as (user & w1 & H1 & H).
  injection H1 as <- <-.
  destruct (find _ (users w)) as [u|] eqn:Hfind; [|discriminate].
  exists u. cbv zeta.
  apply bind_ok in H as ([] & w2 & H2 & H).
  apply bind_ok in H as (updated & w3 & H3 & H).
  injection H as <- <-.
  assert (Hid : User.id u = Session.user_id session).
  { apply find_some in Hfind as [_ E]. now apply Z.eqb_eq in E. }
  assert (Hchecks :
    w2 = logged (UserFindFirstById (Session.user_id session)) w
    /\ (Js.truthy_opt (UpdateInput.newPassword input) = true ->
        Js.truthy_opt (UpdateInput.password input) = true
        /\ Js.truthy_opt (UpdateInput.repeatNewPassword input) = true
        /\ test mediumPassword (str (UpdateInput.newPassword input)) = true
        /\ bcrypt_compareSync (str (UpdateInput.password input)) (User.hash u)
           = true
        /\ str (UpdateInput.newPassword input)
           = str (UpdateInput.repeatNewPassword input))).
  { destruct (Js.truthy_opt (UpdateInput.newPassword input)),
      (Js.truthy_opt (UpdateInput.repeatNewPassword input)),
      (Js.truthy_opt (UpdateInput.password input));
      cbn [orb negb throw_if] in H2; try discriminate.
    - apply bind_ok in H2 as ([] & w4 & H0 & H2).
      injection H0 as <-.
      apply bind_ok in H2 as ([] & w5 & H4 & H2).
      apply throw_if_ok in H4 as [Hmed ->].
      apply bind_ok in H2 as ([] & w6 & H5 & H2).
      apply throw_if_ok in H5 as [Hcmp ->].
      apply throw_if_ok in H2 as [Heq ->].
      apply negb_false_iff in Hmed, Hcmp, Heq. apply String.eqb_eq in Heq.
      split; [reflexivity | auto].
    - injection H2 as <-. split; [reflexivity | discriminate]. }
  destruct Hchecks as [-> Hvalid].
  unfold prisma.user_update, bind in H3. simpl in H3.
  rewrite Hid, Hfind in H3. injection H3 as <- <-. simpl.
  split; [reflexivity|]. split.
  { match goal with
    | |- only_row_changed _ (prisma.update_row _ ?f _) _ _ =>
        exact (find_update_row _ f _ _ Hfind)
    end. }
  split.
  { unfold Js.or_else. destruct (UpdateInput.email input) as [e|]; simpl;
      [intros ->|]; reflexivity. }
  split.
  { unfold Js.or_else. destruct (UpdateInput.name input) as [e|]; simpl;
      [intros ->|]; reflexivity. }
  split; [now intros ->|].
  split; [exact Hvalid|]. auto.
Qed.

(** C8.  In every update call that succeeds, one row changes, the row of the
    acting user, and in it: the e-mail and the name are the supplied values
    when those are non-empty and the stored ones otherwise; the hash is the
    hash of the new password when a new password was supplied, in which case
    all three password fields were there, the new password met the policy,
    the old one matched the stored hash and the two new ones were equal, and
    it is the stored hash otherwise; id, role and last login are kept.  The
    other tables are untouched. *)
Theorem update_frame env session raw input w v w' :
  update_input raw = Some input ->
  update env session raw w = (Ok v, w') ->
  exists u,
    let u' :=
      User.mk (User.id u)
        (Js.or_else (UpdateInput.name input) (User.name u))
        (Js.or_else (UpdateInput.email input) (User.email u))
        (User.lastLogin u) (User.role u)
        (if Js.truthy_opt (UpdateInput.newPassword input)
         then bcrypt_hashSync (str (UpdateInput.newPassword input)) (salt env)
         else User.hash u) in
    find (fun x => (User.id x =? Session.user_id session)%Z) (users w) = Some u
    /\ only_row_changed (users w) (users w') u u'
    /\ (Js.truthy_opt (UpdateInput.email input) = false ->
        User.email u' = User.email u)
    /\ (Js.truthy_opt (UpdateInput.name input) = false ->
        User.name u' = User.name u)
    /\ (Js.truthy_opt (UpdateInput.newPassword input) = false ->
        User.hash u' = User.hash u)
    /\ (Js.truthy_opt (UpdateInput.newPassword input) = true ->
        Js.truthy_opt (UpdateInput.password input) = true
        /\ Js.truthy_opt (UpdateInput.repeatNewPassword input) = true
        /\ test mediumPassword (str (UpdateInput.newPassword input)) = true
        /\ bcrypt_compareSync (str (UpdateInput.password input)) (User.hash u)
           = true
        /\ str (UpdateInput.newPassword input)
           = str (UpdateInput.repeatNewPassword input))
    /\ options w' = options w /\ nextId w' = nextId w
    /\ outbox w' = outbox w /\ console w' = console w.
Proof.
  intros Hin. unfold update, procedure. rewrite Hin.
  apply update_mutation_ok.
Qed.


(** ** passwordResetLink *)

(** When no row has the lowered e-mail, the caller gets the message. *)
Lemma passwordResetLink_unknown env email w :
  Js.truthy email = true ->
  find (fun x => User.email x =? Js.toLowerCase email) (users w) = None ->
  passwordResetLink_mutation env email w
  = (Ok (VString "Mail sent if email exist!"),
     logged (UserFindFirstByEmail (Js.toLowerCase email)) w).
Proof.
  intros Ht Hfind. unfold passwordResetLink_mutation, bind. rewrite Ht. simpl.
  now rewrite Hfind.
Qed.

(** When a row has it, the caller gets undefined or an exception, never the
    message. *)
Lemma passwordResetLink_known env email w u :
  Js.truthy email = true ->
  find (fun x => User.email x =? Js.toLowerCase email) (users w) = Some u ->
  let r := fst (passwordResetLink_mutation env email w) in
  r = Ok VUndefined \/ r = Throw JwtError \/ r = Throw RenderError
  \/ r = Throw TypeError \/ r = Throw MailError.
Proof.
  intros Ht Hfind. unfold passwordResetLink_mutation, bind. rewrite Ht. simpl.
  rewrite Hfind.
  destruct (jwt_sign _ _ _); simpl; [|auto].
  destruct (ejs_render _ _); simpl; [|destruct (options w); simpl; auto].
  destruct (options w); simpl; [|auto 6].
  destruct (sendEmail _ _); simpl; auto 6.
Qed.

(** C1.  With Ann registered as a@x.com, a reset request for b@x.com, which
    nobody has, returns the message, and a reset request for a@x.com does
    not: it returns undefined, or fails when the token, the template or the
    delivery fails.  The response tells whether the account exists. *)
Theorem passwordResetLink_reveals_account (env : Env) :
  fst (passwordResetLink_mutation env "b@x.com" Toy.world)
  = Ok (VString "Mail sent if email exist!")
  /\ (let r := fst (passwordResetLink_mutation env "a@x.com" Toy.world) in
      r = Ok VUndefined \/ r = Throw JwtError \/ r = Throw RenderError
      \/ r = Throw MailError).
Proof.
  split; [reflexivity|].
  unfold passwordResetLink_mutation, bind. simpl.
  destruct (jwt_sign _ _ _); simpl; [|auto].
  destruct (ejs_render _ _); simpl; [|auto].
  destruct (sendEmail _ _); simpl; auto.
Qed.

(** ** changePasswordFromJwt *)

(** A failure inside the try block leaves the tables as they were. *)
Lemma changePasswordFromJwt_try_throw env token password w e w' :
  changePasswordFromJwt_try env token password w = (Throw e, w') ->
  same_tables w w'.
Proof.
  unfold changePasswordFromJwt_try, throwError, bind, throw_if.
  destruct (jwt_decode token) as [claims|];
    [|intros H; injection H as _ <-; apply same_tables_refl].
  destruct (falsy_id (Claims.id claims)); simpl;
    [intros H; injection H as _ <-; apply same_tables_refl|].
  destruct (find _ (users w)) as [u|] eqn:Hfind; simpl;
    [|intros H; injection H as _ <-; unfold same_tables; simpl; auto].
  destruct (Js.truthy (User.hash u)); simpl;
    [|intros H; injection H as _ <-; unfold same_tables; simpl; auto].
  destruct (jwt_verify _ _ _); simpl;
    [|intros H; injection H as _ <-; unfold same_tables; simpl; auto].
  unfold prisma.user_update, bind. simpl. rewrite Hfind. simpl. discriminate.
Qed.

(** A success of the try block: the token carried the id of a row with a
    hash, it verified against that hash, and this row got the new hash. *)
Lemma changePasswordFromJwt_try_ok env token password w v w' :
  changePasswordFromJwt_try env token password w = (Ok v, w') ->
  exists claims u,
    let u' := User.mk (User.id u) (User.name u) (User.email u)
                (User.lastLogin u) (User.role u)
                (bcrypt_hashSync password (salt env)) in
    jwt_decode token = Some claims
    /\ falsy_id (Claims.id claims) = false
    /\ find (fun x => (User.id x =? num (Claims.id claims))%Z) (users w) = Some u
    /\ jwt_verify token (User.hash u) (now env) = true
    /\ v = VUser u'
    /\ only_row_changed (users w) (users w') u u'.
Proof.
  unfold changePasswordFromJwt_try, throwError, bind, throw_if.
  destruct (jwt_decode token) as [claims|]; [|discriminate].
  destruct (falsy_id (Claims.id claims)) eqn:Hid; simpl; [discriminate|].
  destruct (find _ (users w)) as [u|] eqn:Hfind; simpl; [|discriminate].
  destruct (Js.truthy (User.hash u)); simpl; [|discriminate].
  destruct (jwt_verify _ _ _) eqn:Hv; simpl; [|discriminate].
  unfold prisma.user_update, bind. simpl. rewrite Hfind. simpl.
  intros H. injection H as <- <-.
  exists claims, u. simpl. repeat split; trivial.
  match goal with
  | |- only_row_changed _ (prisma.update_row _ ?f _) _ _ =>
      exact (find_update_row _ f _ _ Hfind)
  end.
Qed.

(** Past the two checks on the input, the mutation is the try block with its
    handler. *)
Lemma changePasswordFromJwt_mutation_try env input w :
  Js.truthy (ChangePasswordInput.token input) = true ->
  ChangePasswordInput.password input = ChangePasswordInput.newPassword input ->
  changePasswordFromJwt_mutation env input w
  = try_catch
      (changePasswordFromJwt_try env (ChangePasswordInput.token input)
         (ChangePasswordInput.password input))
      (fun error =>
         console_error error ;;
         throwError "token is not valid, please try again!") w.
Proof.
  intros Ht Heq. unfold changePasswordFromJwt_mutation.
  rewrite Ht, <- Heq, String.eqb_refl. reflexivity.
Qed.

(** Every call fails or returns the updated user, and a failure leaves the
    tables as they were. *)
Lemma changePasswordFromJwt_mutation_throw env input w e w' :
  changePasswordFromJwt_mutation env input w = (Throw e, w') ->
  same_tables w w'.
Proof.
  unfold changePasswordFromJwt_mutation, throwError.
  destruct (Js.truthy (ChangePasswordInput.token input)); simpl;
    [|intros H; injection H as _ <-; apply same_tables_refl].
  destruct (_ =? _); simpl;
    [|intros H; injection H as _ <-; apply same_tables_refl].
  unfold bind at 1 2. simpl. unfold try_catch.
  destruct (changePasswordFromJwt_try _ _ _ w) as [[v|e1] w1] eqn:E;
    [discriminate|].
  apply changePasswordFromJwt_try_throw in E.
  intros H. injection H as _ <-. exact E.
Qed.

(** Whatever fails inside the try block, the caller sees one failure. *)
Lemma changePasswordFromJwt_masks env input w :
  Js.truthy (ChangePasswordInput.token input) = true ->
  ChangePasswordInput.password input = ChangePasswordInput.newPassword input ->
  let r := fst (changePasswordFromJwt_mutation env input w) in
  (exists u, r = Ok (VUser u))
  \/ r = Throw (TRPCError BAD_REQUEST "token is not valid, please try again!").
Proof.
  intros Ht Heq. rewrite (changePasswordFromJwt_mutation_try env input w Ht Heq).
  unfold try_catch.
  destruct (changePasswordFromJwt_try _ _ _ w) as [[v|e] w1] eqn:E; simpl.
  - left. apply changePasswordFromJwt_try_ok in E as (c & u & _ & _ & _ & _ & -> & _).
    eexists. reflexivity.
  - right. reflexivity.
Qed.

(** C2, as the code has it.  For every call with a non-empty token and two
    equal passwords that pass the schema, whose token decodes to claims
    without a user id, the failure that reaches the caller is the general
    one, that the token is not valid; the failure that says the link is not
    valid is raised inside the try block, written to the console, and
    replaced. *)
Theorem changePasswordFromJwt_without_id env raw input w claims :
  changePasswordFromJwt_input raw = Some input ->
  Js.truthy (ChangePasswordInput.token input) = true ->
  ChangePasswordInput.password input = ChangePasswordInput.newPassword input ->
  jwt_decode (ChangePasswordInput.token input) = Some claims ->
  Claims.id claims = None ->
  changePasswordFromJwt env raw w
  = (Throw (TRPCError BAD_REQUEST "token is not valid, please try again!"),
     mkWorld (users w) (options w) (nextId w) (queries w) (outbox w)
       (TRPCError BAD_REQUEST "This link is not valid!" :: console w)).
Proof.
  intros Hin Ht Heq Hdec Hid. unfold changePasswordFromJwt, procedure.
  rewrite Hin, (changePasswordFromJwt_mutation_try env input w Ht Heq).
  unfold try_catch, changePasswordFromJwt_try. rewrite Hdec, Hid. reflexivity.
Qed.


(** ** Reset tokens and the hash they are signed with *)

Lemma changePasswordFromJwt_mutation_ok env input w v w' :
  changePasswordFromJwt_mutation env input w = (Ok v, w') ->
  changePasswordFromJwt_try env (ChangePasswordInput.token input)
    (ChangePasswordInput.password input) w = (Ok v, w').
Proof.
  unfold changePasswordFromJwt_mutation, throwError.
  destruct (Js.truthy (ChangePasswordInput.token input)); simpl;
    [|discriminate].
  destruct (_ =? _); simpl; [|discriminate].
  unfold bind at 1 2. simpl. unfold try_catch.
  destruct (changePasswordFromJwt_try _ _ _ w) as [[v1|e1] w1];
    [trivial | discriminate].
Qed.

Lemma find_update_row_same (id : Z) (f : User.t -> User.t) (l : list User.t)
  (u : User.t) :
  User.id (f u) = User.id u ->
  find (fun x => (User.id x =? id)%Z) l = Some u ->
  find (fun x => (User.id x =? id)%Z) (prisma.update_row id f l) = Some (f u).
Proof.
  intros Hf. induction l as [|x l IH]; simpl; [discriminate|].
  destruct (User.id x =? id)%Z eqn:E; simpl.
  - intros H. injection H as ->. now rewrite Hf, E.
  - rewrite E. exact IH.
Qed.

(** A successful update with a new password leaves the hash of that password
    in the row of the acting user. *)
Lemma update_replaces_hash env session input w v w' :
  update_mutation env session input w = (Ok v, w') ->
  Js.truthy_opt (UpdateInput.newPassword input) = true ->
  exists u u',
    find (fun x => (User.id x =? Session.user_id session)%Z) (users w) = Some u
    /\ find (fun x => (User.id x =? Session.user_id session)%Z) (users w')
       = Some u'
    /\ User.hash u'
       = bcrypt_hashSync (str (UpdateInput.newPassword input)) (salt env).
Proof.
  unfold update_mutation. intros H Hnp.
  apply bind_ok in H as (user & w1 & H1 & H).
  injection H1 as <- <-.
  destruct (find _ (users w)) as [u|] eqn:Hfind; [|discriminate].
  assert (Hid : User.id u = Session.user_id session).
  { apply find_some in Hfind as [_ E]. now apply Z.eqb_eq in E. }
  apply bind_ok in H as ([] & w2 & H2 & H).
  assert (Hw2 : users w2 = users w).
  { match type of H2 with ?m ?w0 = _ =>
      assert (G : preserves same_tables m)
    end.
    { unfold preserves.
      destruct (_ || _);
        repeat first [ apply preserves_bind; [exact same_tables_trans | |intros ?]
                     | apply preserves_throw_if; exact same_tables_refl
                     | apply preserves_ret; exact same_tables_refl ]. }
    specialize (G (logged (UserFindFirstById (Session.user_id session)) w)).
    unfold logged in G. rewrite H2 in G. now destruct G as (G & _). }
  apply bind_ok in H as (updated & w3 & H3 & H).
  injection H as <- <-.
  unfold prisma.user_update, bind in H3. simpl in H3.
  rewrite Hw2, Hid, Hfind in H3. injection H3 as <- <-. simpl.
  eexists u, _. split; [reflexivity|]. split.
  - apply find_update_row_same; [reflexivity | exact Hfind].
  - simpl. now rewrite Hnp.
Qed.

(** A successful redemption leaves the hash of the submitted password in the
    row that the token names. *)
Lemma redeem_replaces_hash env input w v w' :
  changePasswordFromJwt_mutation env input w = (Ok v, w') ->
  exists claims u u',
    jwt_decode (ChangePasswordInput.token input) = Some claims
    /\ find (fun x => (User.id x =? num (Claims.id claims))%Z) (users w) = Some u
    /\ find (fun x => (User.id x =? num (Claims.id claims))%Z) (users w')
       = Some u'
    /\ User.hash u'
       = bcrypt_hashSync (ChangePasswordInput.password input) (salt env).
Proof.
  intros H. apply changePasswordFromJwt_mutation_ok in H.
  unfold changePasswordFromJwt_try, throwError, bind, throw_if in H.
  destruct (jwt_decode _) as [claims|]; [|discriminate].
  destruct (falsy_id (Claims.id claims)); simpl in H; [discriminate|].
  destruct (find _ (users w)) as [u|] eqn:Hfind; simpl in H; [|discriminate].
  destruct (Js.truthy (User.hash u)); simpl in H; [|discriminate].
  destruct (jwt_verify _ _ _); simpl in H; [|discriminate].
  unfold prisma.user_update, bind in H. simpl in H. rewrite Hfind in H.
  simpl in H. injection H as <- <-. simpl.
  eexists claims, u, _. split; [reflexivity|]. split; [exact Hfind|]. split.
  - apply find_update_row_same; [reflexivity | exact Hfind].
  - reflexivity.
Qed.

(** A token signed with a hash that the row of its user no longer holds:
    if the signature of a token binds it to its secret and the payload of a
    signed token carries its user id, the token verifies at no time against
    the hash the row holds now, and a redemption with it fails and leaves the
    tables as they are. *)
Lemma stale_token_rejected (u : User.t) (t0 : Z)
  (tok : string) (w1 : World) (u1 : User.t) :
  (forall c k t token k' t',
      jwt_sign c k t = Some token -> jwt_verify token k' t' = true -> k' = k) ->
  (forall c k t token,
      jwt_sign c k t = Some token ->
      exists c', jwt_decode token = Some c' /\ Claims.id c' = Claims.id c) ->
  jwt_sign (Claims.mk (Some (User.id u)) (Some (User.email u))) (User.hash u) t0
  = Some tok ->
  find (fun x => (User.id x =? User.id u)%Z) (users w1) = Some u1 ->
  User.hash u1 <> User.hash u ->
  (forall t, jwt_verify tok (User.hash u1) t = false)
  /\ (forall env input,
         ChangePasswordInput.token input = tok ->
         exists e w2,
           changePasswordFromJwt_mutation env input w1 = (Throw e, w2)
           /\ same_tables w1 w2).
Proof.
  intros Hsecret Hpayload Hsign Hrow Hchanged.
  assert (Hverify : forall t, jwt_verify tok (User.hash u1) t = false).
  { intros t. destruct (jwt_verify tok (User.hash u1) t) eqn:E; [|reflexivity].
    now apply (Hsecret _ _ _ _ _ _ Hsign) in E. }
  split; [exact Hverify|].
  intros env input Htok.
  destruct (changePasswordFromJwt_mutation env input w1) as [[v|e] w2] eqn:E.
  - exfalso. apply changePasswordFromJwt_mutation_ok in E.
    apply changePasswordFromJwt_try_ok in E
      as (claims & u2 & Hdec & Hid & Hfind & Hv & _).
    rewrite Htok in Hdec, Hv.
    destruct (Hpayload _ _ _ _ Hsign) as (c' & Hdec' & Hc').
    rewrite Hdec in Hdec'. injection Hdec' as <-.
    rewrite Hc' in Hfind. simpl in Hfind. rewrite Hrow in Hfind.
    injection Hfind as <-. rewrite Hverify in Hv. discriminate.
  - exists e, w2. split; [reflexivity|].
    eapply changePasswordFromJwt_mutation_throw. exact E.
Qed.

(** C6.  Let the signature of a token bind it to its secret, and let the
    payload of a signed token carry its user id.  For every token issued for
    a user with the hash of this user as secret: once a password change of
    this user, through update or through the redemption of a token of theirs,
    has replaced this hash by another, the token does not verify against the
    new hash at any time, and a redemption with it fails and leaves the
    tables as they are. *)
Theorem reset_token_revoked_by_password_change (u : User.t) (t0 : Z)
  (tok : string) (w0 w1 : World) (env1 : Env) :
  (forall c k t token k' t',
      jwt_sign c k t = Some token -> jwt_verify token k' t' = true -> k' = k) ->
  (forall c k t token,
      jwt_sign c k t = Some token ->
      exists c', jwt_decode token = Some c' /\ Claims.id c' = Claims.id c) ->
  jwt_sign (Claims.mk (Some (User.id u)) (Some (User.email u))) (User.hash u) t0
  = Some tok ->
  (exists session input v,
      Session.user_id session = User.id u
      /\ Js.truthy_opt (UpdateInput.newPassword input) = true
      /\ update_mutation env1 session input w0 = (Ok v, w1)
      /\ bcrypt_hashSync (str (UpdateInput.newPassword input)) (salt env1)
         <> User.hash u)
  \/ (exists input v claims,
         jwt_decode (ChangePasswordInput.token input) = Some claims
         /\ Claims.id claims = Some (User.id u)
         /\ changePasswordFromJwt_mutation env1 input w0 = (Ok v, w1)
         /\ bcrypt_hashSync (ChangePasswordInput.password input) (salt env1)
            <> User.hash u) ->
  exists u1,
    find (fun x => (User.id x =? User.id u)%Z) (users w1) = Some u1
    /\ User.hash u1 <> User.hash u
    /\ (forall t, jwt_verify tok (User.hash u1) t = false)
    /\ (forall env input,
           ChangePasswordInput.token input = tok ->
           exists e w2,
             changePasswordFromJwt_mutation env input w1 = (Throw e, w2)
             /\ same_tables w1 w2).
Proof.
  intros Hsecret Hpayload Hsign Hchange.
  assert (Hrow : exists u1,
             find (fun x => (User.id x =? User.id u)%Z) (users w1) = Some u1
             /\ User.hash u1 <> User.hash u).
  { destruct Hchange as [(session & input & v & Hs & Hnp & Hup & Hneq)
                        |(input & v & claims & Hdec & Hid & Hre & Hneq)].
    - apply update_replaces_hash in Hup as (u0 & u1 & _ & Hfind & Hhash);
        [|exact Hnp].
      exists u1. rewrite <- Hs. split; [exact Hfind | congruence].
    - apply redeem_replaces_hash in Hre
        as (claims' & u0 & u1 & Hdec' & _ & Hfind & Hhash).
      rewrite Hdec in Hdec'. injection Hdec' as <-.
      rewrite Hid in Hfind. simpl in Hfind.
      exists u1. split; [exact Hfind | congruence]. }
  destruct Hrow as (u1 & Hfind & Hneq). exists u1.
  split; [exact Hfind|]. split; [exact Hneq|].
  exact (stale_token_rejected u t0 tok w1 u1 Hsecret Hpayload Hsign Hfind Hneq).
Qed.

End Facts.

(** * The theorems at work on the executable instance *)

Lemma toy_sign_binds_secret (c : Claims.t) (k : string) (t : Z) (token : string)
  (k' : string) (t' : Z) :
  Toy.sign c k t = Some token -> Toy.verify token k' t' = true -> k' = k.
Proof.
  unfold Toy.sign, Toy.verify. destruct (Claims.id c) as [z|]; [|discriminate].
  destruct (_ && _)%bool; [|discriminate].
  intros H. injection H as <-. intros E. apply String.eqb_eq in E. now subst.
Qed.

Lemma toy_sign_payload (c : Claims.t) (k : string) (t : Z) (token : string) :
  Toy.sign c k t = Some token ->
  exists c', Toy.decode token = Some c' /\ Claims.id c' = Claims.id c.
Proof.
  unfold Toy.sign, Toy.decode. destruct (Claims.id c) as [z|]; [|discriminate].
  destruct ((0 <? z)%Z && (z <? 256)%Z && Js.truthy k)%bool eqn:E; [|discriminate].
  apply andb_true_iff in E as [E _]. apply andb_true_iff in E as [E1 E2].
  apply Z.ltb_lt in E1, E2.
  intros H. injection H as <-. unfold Js.code.
  rewrite nat_ascii_embedding by lia.
  destruct (Nat.eqb_spec (Z.to_nat z) 0) as [E0|_]; [lia|].
  eexists. split; [reflexivity|]. simpl. f_equal. lia.
Qed.

(** C2, the claim as stated fails: a token whose payload has no id, with two
    equal and valid passwords.  The failure that reaches the caller is not
    the one that says the link is not valid. *)
Lemma changePasswordFromJwt_without_id_counterexample :
  let token := String (ascii_of_nat 0) "zz" in
  let raw := RawChangePassword.mk (Some token) (Some "Abc123") (Some "Abc123") in
  Toy.decode token = Some (Claims.mk None None)
  /\ fst (changePasswordFromJwt (L:=Toy.libs) Toy.env raw Toy.world)
     = Throw (TRPCError BAD_REQUEST "token is not valid, please try again!")
  /\ fst (changePasswordFromJwt (L:=Toy.libs) Toy.env raw Toy.world)
     <> Throw (TRPCError BAD_REQUEST "This link is not valid!").
Proof.
  split; [reflexivity|]. split; [reflexivity|]. discriminate.
Qed.

(** C2: the amended statement applies to that call. *)
Lemma changePasswordFromJwt_without_id_witness :
  let token := String (ascii_of_nat 0) "zz" in
  changePasswordFromJwt (L:=Toy.libs) Toy.env
    (RawChangePassword.mk (Some token) (Some "Abc123") (Some "Abc123"))
    Toy.world
  = (Throw (TRPCError BAD_REQUEST "token is not valid, please try again!"),
     mkWorld (users Toy.world) (options Toy.world) (nextId Toy.world)
       (queries Toy.world) (outbox Toy.world)
       (TRPCError BAD_REQUEST "This link is not valid!" :: console Toy.world)).
Proof.
  exact (changePasswordFromJwt_without_id (L:=Toy.libs) Toy.env
           (RawChangePassword.mk (Some (String (ascii_of_nat 0) "zz"))
              (Some "Abc123") (Some "Abc123"))
           (ChangePasswordInput.mk (String (ascii_of_nat 0) "zz")
              "Abc123" "Abc123")
           Toy.world (Claims.mk None None)
           eq_refl eq_refl eq_refl eq_refl eq_refl).
Defined.




(** C6: Ann's reset token, issued under her first hash, after she has
    changed her password through update. *)
Lemma reset_token_revoked_by_password_change_witness :
  let tok := String (ascii_of_nat 1) (User.hash Toy.ann) in
  let input := UpdateInput.mk None (Some "Abc123") (Some "Xyz123")
                 (Some "Xyz123") None in
  let w1 := snd (update_mutation (L:=Toy.libs) Toy.env (Session.mk 1) input
                   Toy.world) in
  exists u1,
    find (fun x => (User.id x =? 1)%Z) (users w1) = Some u1
    /\ User.hash u1 <> User.hash Toy.ann
    /\ (forall t, Toy.verify tok (User.hash u1) t = false)
    /\ (forall env input,
           ChangePasswordInput.token input = tok ->
           exists e w2,
             changePasswordFromJwt_mutation (L:=Toy.libs) env input w1
             = (Throw e, w2)
             /\ same_tables w1 w2).
Proof.
  intros tok input w1.
  apply (reset_token_revoked_by_password_change (L:=Toy.libs)
           Toy.ann 1000 tok Toy.world w1 Toy.env
           toy_sign_binds_secret toy_sign_payload eq_refl).
  left. exists (Session.mk 1), input, VUndefined.
  split; [reflexivity|]. split; [reflexivity|]. split; [reflexivity|].
  intros E. vm_compute in E. discriminate.
Defined.

(** C7, the claim as stated fails: a session whose user has no row.  The
    guard that comes first answers that the user is not found. *)
Lemma update_partial_password_fields_counterexample :
  update (L:=Toy.libs) Toy.env (Session.mk 7)
    (UpdateInput.mk None None (Some "Xyz123") None None) Toy.world
  = (Throw (TRPCError NOT_FOUND "User not found!"),
     logged (UserFindFirstById 7) Toy.world).
Proof. reflexivity. Qed.

(** C7: Ann sends a new password alone. *)
Lemma update_partial_password_fields_witness :
  update (L:=Toy.libs) Toy.env (Session.mk 1)
    (UpdateInput.mk None None (Some "Xyz123") None None) Toy.world
  = (Throw (TRPCError BAD_REQUEST "Please fill all fields!"),
     logged (UserFindFirstById 1) Toy.world).
Proof.
  exact (update_partial_password_fields (L:=Toy.libs) Toy.env (Session.mk 1)
           (UpdateInput.mk None None (Some "Xyz123") None None)
           (UpdateInput.mk None None (Some "Xyz123") None None)
           Toy.world Toy.ann eq_refl eq_refl eq_refl eq_refl).
Defined.

(** C8: Ann changes her name and her password, and keeps her e-mail. *)
Lemma update_frame_witness :
  let raw := UpdateInput.mk None (Some "Abc123") (Some "Xyz123")
               (Some "Xyz123") (Some "Anna") in
  let w' := snd (update (L:=Toy.libs) Toy.env (Session.mk 1) raw Toy.world) in
  only_row_changed (users Toy.world) (users w') Toy.ann
    (User.mk 1 "Anna" "a@x.com" 0 ADMIN (Toy.hashSync "Xyz123" "s1")).
Proof.
  intros raw w'.
  destruct (update_frame (L:=Toy.libs) Toy.env (Session.mk 1) raw raw
              Toy.world VUndefined w' eq_refl eq_refl)
    as (u & Hfind & Hrow & _).
  injection Hfind as <-. exact Hrow.
Defined.

(** C9: a GET, a POST with another key, and a POST with the key. *)
Lemma createUserHandler_gate_witness :
  let body := RawRegister.mk (Some "b@x.com") (Some "Abc123") (Some "Bob") in
  createUserHandler (L:=Toy.libs) (Request.mk "GET" (Some "secret") body)
  = Respond (End_ 405)
  /\ createUserHandler (L:=Toy.libs) (Request.mk "POST" (Some "Secret") body)
     = Respond (Json 401 (BodyError "Unauthorized"))
  /\ createUserHandler (L:=Toy.libs) (Request.mk "POST" None body)
     = Respond (Json 401 (BodyError "Unauthorized"))
  /\ exists k,
       createUserHandler (L:=Toy.libs) (Request.mk "POST" (Some "secret") body)
       = CallRegister body k.
Proof.
  intros body. split; [|split; [|split]].
  - apply (proj1 (createUserHandler_gate (L:=Toy.libs)
                    (Request.mk "GET" (Some "secret") body))).
    discriminate.
  - apply (proj1 (proj2 (createUserHandler_gate (L:=Toy.libs)
                           (Request.mk "POST" (Some "Secret") body))));
      [reflexivity | discriminate].
  - apply (proj1 (proj2 (createUserHandler_gate (L:=Toy.libs)
                           (Request.mk "POST" None body))));
      [reflexivity | discriminate].
  - apply (proj2 (proj2 (proj2 (createUserHandler_gate (L:=Toy.libs)
                                  (Request.mk "POST" (Some "secret") body)))));
      reflexivity.
Defined.

(** * Further properties of the sources *)

(** ** The password policy, as the regular expression decides it *)

(** X1.  [mediumPassword.test] answers true exactly for the strings whose
    first line, the code units before the first line terminator, has six
    code units or more and holds two of the three classes: what follows the
    first line terminator is never looked at. *)
Theorem mediumPassword_decides_first_line (s : string) :
  test mediumPassword s = true
  <-> (6 <= String.length (first_line s))%nat
      /\ (2 <= classes (first_line s))%nat.
Proof.
  rewrite mediumPassword_test. unfold policy.
  rewrite andb_true_iff, !Nat.leb_le. tauto.
Qed.

(** X2.  The password schema never lets a weak password through: whatever
    it accepts has six to forty code units and holds two of the three
    classes. *)
Theorem passwordSchema_never_accepts_weak (s : string) :
  passwordSchema s = true ->
  (6 <= String.length s <= 40)%nat /\ (2 <= classes s)%nat.
Proof.
  unfold passwordSchema. intros H.
  apply andb_true_iff in H as [H Hre]. apply andb_true_iff in H as [_ Hmax].
  apply Nat.leb_le in Hmax.
  rewrite mediumPassword_test in Hre. unfold policy in Hre.
  apply andb_true_iff in Hre as [Hc Hl]. apply Nat.leb_le in Hc, Hl.
  pose proof (first_line_length s). pose proof (first_line_classes s). lia.
Qed.

(** X3.  On the candidates that hold no line terminator the schema is the
    documented policy and nothing else: it accepts exactly those of six to
    forty code units with two of the three classes. *)
Theorem passwordSchema_decides_policy (s : string) :
  Js.exists_char Js.is_line_terminator s = false ->
  (passwordSchema s = true
   <-> (6 <= String.length s <= 40)%nat /\ (2 <= classes s)%nat).
Proof.
  intros Hnl. unfold passwordSchema.
  rewrite mediumPassword_test, (first_line_whole s Hnl). unfold policy.
  rewrite !andb_true_iff, !Nat.leb_le. split.
  - intros [[_ Hmax] [Hc Hl]]. lia.
  - intros [[Hl Hmax] Hc]. repeat split; trivial.
    destruct s; [simpl in Hl; lia | reflexivity].
Qed.

(** X2: a password that the schema accepts. *)
Lemma passwordSchema_never_accepts_weak_witness :
  (6 <= String.length "Abc123" <= 40)%nat /\ (2 <= classes "Abc123")%nat.
Proof. apply passwordSchema_never_accepts_weak. reflexivity. Defined.

(** X3: a password without line terminator that the schema accepts. *)
Lemma passwordSchema_decides_policy_witness :
  passwordSchema "abcde1" = true.
Proof.
  apply (proj2 (passwordSchema_decides_policy "abcde1" eq_refl)).
  vm_compute. lia.
Defined.

Section Behaviour.

Context {L : Libs}.

(** ** register *)

(** One notification ends normally or on a template that does not render;
    it touches no table. *)
Lemma notify_admin_outcome go template tr name email (a : User.t) (w : World) :
  exists r w',
    notify_admin go template tr name email a w = (r, w')
    /\ same_tables w w'
    /\ (r = Ok tt \/ r = Throw RenderError).
Proof.
  pose proof (notify_admin_tables go template tr name email a w) as T.
  unfold notify_admin in *.
  destruct (ejs_render template _) as [t|];
    [destruct (sendEmail tr _)|]; eexists _, _; (split; [reflexivity|]);
    simpl in T; auto.
Qed.

Lemma notify_loop_outcome go template tr name email (l : list User.t) (w : World) :
  exists r w',
    for_each l (notify_admin go template tr name email) w = (r, w')
    /\ same_tables w w'
    /\ (r = Ok tt \/ r = Throw RenderError).
Proof.
  revert w. induction l as [|a l IH]; intros w; simpl.
  - exists (Ok tt), w. auto using same_tables_refl.
  - unfold bind.
    destruct (notify_admin_outcome go template tr name email a w)
      as (r1 & w1 & E1 & T1 & [->| ->]); rewrite E1.
    + destruct (IH w1) as (r & w' & E & T & O). exists r, w'.
      split; [exact E|]. split; [eapply same_tables_trans; eassumption | exact O].
    + exists (Throw RenderError), w1. auto.
Qed.




(** Every outcome of the mutation.  Either the call was refused before any
    write: the tables, the outbox and the console are as they were.  Or the
    row of the new user was appended and the notification loop ran from
    there over the administrators, the new user among them when it is the
    first; the call returns the user unless the loop failed. *)
Lemma register_mutation_outcome env input w r w' :
  register_mutation env input w = (r, w') ->
  let u := User.mk (nextId w) (RegisterInput.name input)
             (RegisterInput.email input) (now env)
             (if (Z.of_nat (List.length (users w)) =? 0)%Z then ADMIN else USER)
             (bcrypt_hashSync (RegisterInput.password input) (salt env)) in
  (same_tables w w' /\ outbox w' = outbox w /\ console w' = console w
   /\ (r = Throw TypeError
       \/ r = Throw (TRPCError BAD_REQUEST
                       "Registration is disabled! Please contact the administrator.")
       \/ r = Ok (VError "Email required!")
       \/ r = Throw (TRPCError NOT_FOUND
                       ("email " ++ dquote ++ RegisterInput.email input ++ dquote
                        ++ " already taken"))
       \/ (r = Throw (TRPCError BAD_REQUEST
                        "Password does not meet the requirements!")
           /\ test mediumPassword (RegisterInput.password input) = false)))
  \/ (exists settings q r0,
        options w = Some settings
        /\ GlobalOptions.enableRegistration settings = true
        /\ Js.truthy (RegisterInput.email input) = true
        /\ find (fun x => User.email x =? RegisterInput.email input) (users w)
           = None
        /\ (if GlobalOptions.userRegistrationNotification settings
            then for_each (admins (users w ++ [u]))
                   (notify_admin settings
                      match GlobalOptions.notificationTemplate settings with
                      | Some t => t
                      | None => notificationTemplate
                      end (createTransporter (Some settings))
                      (RegisterInput.name input) (RegisterInput.email input))
            else ret tt)
             (mkWorld (users w ++ [u]) (Some settings) (nextId w + 1) q
                (outbox w) (console w))
           = (r0, w')
        /\ r = match r0 with Ok _ => Ok (VRegistered u) | Throw e => Throw e end).
Proof.
  unfold register_mutation, bind. simpl.
  destruct (options w) as [settings|] eqn:Hopt; simpl.
  2:{ intros H. injection H as <- <-. left. unfold same_tables. simpl. auto 8. }
  destruct (GlobalOptions.enableRegistration settings) eqn:Hen; simpl.
  2:{ intros H. injection H as <- <-. left. unfold same_tables. simpl. auto 8. }
  destruct (Js.truthy (RegisterInput.email input)) eqn:Ht; simpl.
  2:{ intros H. injection H as <- <-. left. unfold same_tables. simpl. auto 8. }
  destruct (find _ (users w)) as [u0|] eqn:Hfind; simpl.
  { intros H. injection H as <- <-. left. unfold same_tables. simpl. auto 10. }
  destruct (Js.truthy (RegisterInput.password input)
            && negb (test mediumPassword (RegisterInput.password input))) eqn:Hpw;
    simpl.
  { intros H. injection H as <- <-. left. unfold same_tables. simpl.
    split; [auto|]. do 2 (split; [reflexivity|]).
    do 4 right. split; [reflexivity|].
    apply andb_true_iff in Hpw as [_ Hpw]. now apply negb_true_iff in Hpw. }
  intros H. right. exists settings.
  destruct (GlobalOptions.userRegistrationNotification settings).
  - simpl in H.
    match type of H with
    | context [for_each ?l ?f ?w0] =>
        destruct (for_each l f w0) as [r0 w1] eqn:E
    end.
    destruct r0 as [[]|e]; injection H as <- <-;
      eexists _, _; do 4 (split; [first [reflexivity | assumption]|]);
      (split; [exact E | reflexivity]).
  - injection H as <- <-. eexists _, (Ok tt).
    do 4 (split; [first [reflexivity | assumption]|]). split; reflexivity.
Qed.

(** The same for the procedure, input parsing included: the tables after
    the call. *)
Lemma register_outcome env raw r w w' :
  register env raw w = (r, w') ->
  (same_tables w w' /\ outbox w' = outbox w /\ console w' = console w
   /\ (forall u, r <> Ok (VRegistered u)) /\ r <> Throw RenderError)
  \/ (exists input u,
        register_input raw = Some input
        /\ User.email u = RegisterInput.email input
        /\ User.role u
           = (if (Z.of_nat (List.length (users w)) =? 0)%Z then ADMIN else USER)
        /\ User.id u = nextId w
        /\ users w' = (users w ++ [u])%list
        /\ options w' = options w
        /\ (exists settings, options w = Some settings
                             /\ GlobalOptions.enableRegistration settings = true)
        /\ Js.truthy (RegisterInput.email input) = true
        /\ (r = Ok (VRegistered u) \/ r = Throw RenderError)).
Proof.
  unfold register, procedure.
  destruct (register_input raw) as [input|].
  - intros H. apply register_mutation_outcome in H. cbv zeta in H.
    destruct H as [(T & Ho & Hc & O)
                  |(settings & q & r0 & Hopt & Hen & Ht & _ & E & ->)].
    + left. do 3 (split; [assumption|]).
      destruct O as [->|[->|[->|[->|[-> _]]]]]; split; intros; discriminate.
    + right.
      set (u := User.mk (nextId w) (RegisterInput.name input)
                  (RegisterInput.email input) (now env)
                  (if (Z.of_nat (List.length (users w)) =? 0)%Z
                   then ADMIN else USER)
                  (bcrypt_hashSync (RegisterInput.password input) (salt env)))
        in *.
      exists input, u. do 4 (split; [reflexivity|]).
      assert (users w' = (users w ++ [u])%list
              /\ options w' = options w
              /\ (r0 = Ok tt \/ r0 = Throw RenderError)) as (Hu & Ho & O).
      { destruct (GlobalOptions.userRegistrationNotification settings).
        - match type of E with
          | for_each ?l (notify_admin ?go ?t ?tr ?n ?e) ?w0 = _ =>
              destruct (notify_loop_outcome go t tr n e l w0)
                as (r1 & w1 & E1 & (Hu & Ho & _) & O)
          end.
          rewrite E1 in E. injection E as -> ->. simpl in Hu, Ho.
          rewrite Hopt. auto.
        - injection E as <- <-. simpl. rewrite Hopt. auto. }
      split; [exact Hu|]. split; [exact Ho|].
      split; [now exists settings|]. split; [exact Ht|].
      destruct O as [->| ->]; auto.
  - intros H. injection H as <- <-. left.
    split; [apply same_tables_refl|]. do 2 (split; [reflexivity|]).
    split; intros; discriminate.
Qed.

(** X4.  A register call writes nothing unless it returns the created user
    or fails on a notification template: every other outcome, the refusals
    and the returned error object, leaves the tables, the outbox and the
    console as they were. *)
Theorem register_refusal_writes_nothing env raw w r w' :
  register env raw w = (r, w') ->
  (forall u, r <> Ok (VRegistered u)) ->
  r <> Throw RenderError ->
  only_logged w w'.
Proof.
  intros H Hok Hrender. apply register_outcome in H.
  destruct H as [(T & Ho & Hc & _)
                |(input & u & _ & _ & _ & _ & _ & _ & _ & _ & [->| ->])].
  - unfold only_logged. auto.
  - now destruct (Hok u).
  - now destruct Hrender.
Qed.

(** X5.  When a register call fails on a notification template, the user
    has been created all the same: the caller sees a failure, and the table
    holds one more row, with the e-mail of the call and the role that the
    user count gave it. *)
Theorem register_template_failure_keeps_user env raw w w' :
  register env raw w = (Throw RenderError, w') ->
  exists input u,
    register_input raw = Some input
    /\ users w' = (users w ++ [u])%list
    /\ User.email u = RegisterInput.email input
    /\ User.role u
       = (if (Z.of_nat (List.length (users w)) =? 0)%Z then ADMIN else USER).
Proof.
  intros H. apply register_outcome in H.
  destruct H as [(_ & _ & _ & _ & Hr)
                |(input & u & Hin & Hmail & Hrole & _ & Hu & _)].
  - now destruct Hr.
  - exists input, u. auto.
Qed.

(** X6.  Every register call ends in one of seven ways: the input is
    rejected, the options row is missing, registration is disabled, the
    error object for an empty e-mail is returned, the e-mail is already
    taken, the user is returned, or a notification template fails.  The
    failure of the password check inside the mutation is not among them: a
    password that reaches the mutation has passed the schema, which applies
    the same regular expression. *)
Theorem register_possible_outcomes env raw w :
  let r := fst (register env raw w) in
  r = Throw InputError
  \/ r = Throw TypeError
  \/ r = Throw (TRPCError BAD_REQUEST
                  "Registration is disabled! Please contact the administrator.")
  \/ r = Ok (VError "Email required!")
  \/ (exists email,
        r = Throw (TRPCError NOT_FOUND
                     ("email " ++ dquote ++ email ++ dquote ++ " already taken")))
  \/ (exists u, r = Ok (VRegistered u))
  \/ r = Throw RenderError.
Proof.
  cbv zeta. unfold register, procedure.
  destruct (register_input raw) as [input|] eqn:Hin; [|auto].
  destruct (register_mutation env input w) as [r w'] eqn:H. simpl.
  assert (Hpw : test mediumPassword (RegisterInput.password input) = true).
  { unfold register_input in Hin.
    destruct (email_schema _); [|discriminate].
    destruct (RawRegister.password raw) as [p|]; [|discriminate].
    destruct (RawRegister.name raw); [|discriminate].
    destruct (passwordSchema p) eqn:Hp; [|discriminate]. simpl in Hin.
    destruct (_ && _) in Hin; [|discriminate]. injection Hin as <-. simpl.
    unfold passwordSchema in Hp. now apply andb_true_iff in Hp as [_ Hp]. }
  apply register_mutation_outcome in H. cbv zeta in H.
  destruct H as [(_ & _ & _ & O)|(settings & q & r0 & _ & _ & _ & _ & E & Hr)].
  - destruct O as [->|[->|[->|[->|[-> Hbad]]]]].
    + auto.
    + auto.
    + auto 6.
    + do 4 right. left. eexists. reflexivity.
    + congruence.
  - subst r. destruct r0 as [[]|e]; [do 5 right; left; eexists; reflexivity|].
    destruct (GlobalOptions.userRegistrationNotification settings);
      [|discriminate].
    match type of E with
    | for_each ?l (notify_admin ?go ?t ?tr ?n ?e0) ?w0 = _ =>
        destruct (notify_loop_outcome go t tr n e0 l w0)
          as (r1 & w1 & E1 & _ & [->| ->])
    end; rewrite E1 in E; [discriminate E|].
    injection E as <- _. auto 8.
Qed.


(** ** update *)

Lemma only_logged_refl (w : World) : only_logged w w.
Proof. unfold only_logged, same_tables. auto. Qed.

Lemma only_logged_trans (w1 w2 w3 : World) :
  only_logged w1 w2 -> only_logged w2 w3 -> only_logged w1 w3.
Proof. unfold only_logged, same_tables. intuition congruence. Qed.

Lemma bind_throw {A B} (m : M A) (f : A -> M B) (w w' : World) (e : exn) :
  bind m f w = (Throw e, w') ->
  m w = (Throw e, w')
  \/ exists a w1, m w = (Ok a, w1) /\ f a w1 = (Throw e, w').
Proof.
  unfold bind. destruct (m w) as [[a|e1] w1]; intros H.
  - right. now exists a, w1.
  - left. injection H as -> ->. reflexivity.
Qed.

Ltac quiet :=
  repeat first
    [ exact only_logged_refl | exact only_logged_trans
    | apply preserves_ret | apply preserves_throw | apply preserves_throw_if
    | apply preserves_bind
    | progress intros
    | match goal with
      | |- preserves _ (match ?x with _ => _ end) => destruct x
      | |- preserves _ (if ?x then _ else _) => destruct x
      end
    | (intros ?w; unfold only_logged, same_tables; simpl; auto; fail) ].

(** The lookup of a row by id writes nothing. *)
Lemma user_findFirst_id_quiet (id : Z) :
  preserves only_logged (prisma.user_findFirst_id id).
Proof. unfold prisma.user_findFirst_id, log_query. quiet. Qed.

(** A failed update has written nothing. *)
Lemma update_mutation_throw env session input w e w' :
  update_mutation env session input w = (Throw e, w') ->
  only_logged w w'.
Proof.
  unfold update_mutation. intros H.
  apply bind_throw in H as [H|(user & w1 & H1 & H)]; [discriminate H|].
  injection H1 as <- <-.
  destruct (find _ (users w)) as [u|].
  2:{ injection H as _ <-. unfold only_logged, same_tables. simpl. auto. }
  match type of H with bind ?m _ ?w0 = _ =>
    assert (Hm : preserves only_logged m) by (unfold throwError; quiet);
    specialize (Hm w0)
  end.
  apply bind_throw in H as [H|([] & w2 & H2 & H)].
  - rewrite H in Hm. simpl in Hm.
    eapply only_logged_trans; [|exact Hm].
    unfold only_logged, same_tables. simpl. auto.
  - rewrite H2 in Hm. simpl in Hm.
    apply bind_throw in H as [H|(updated & w3 & _ & H)]; [|discriminate H].
    unfold prisma.user_update, bind in H. simpl in H.
    destruct (find _ (users w2)); [discriminate H|]. injection H as _ <-.
    eapply only_logged_trans; [|eapply only_logged_trans; [exact Hm|]];
      unfold only_logged, same_tables; simpl; auto.
Qed.

(** X8.  An update call is all or nothing: whenever it fails, on the input,
    on a missing user or on any of the password checks, the tables, the
    outbox and the console are as they were. *)
Theorem update_failure_writes_nothing env session raw w e w' :
  update env session raw w = (Throw e, w') ->
  only_logged w w'.
Proof.
  unfold update, procedure. destruct (update_input raw) as [input|].
  - apply update_mutation_throw.
  - intros H. injection H as _ <-. apply only_logged_refl.
Qed.

(** ** changePasswordFromJwt *)

(** A failure inside the try block has written nothing. *)
Lemma changePasswordFromJwt_try_quiet env token password w e w' :
  changePasswordFromJwt_try env token password w = (Throw e, w') ->
  only_logged w w'.
Proof.
  unfold changePasswordFromJwt_try, throwError, prisma.user_update, bind,
    throw_if.
  destruct (jwt_decode token) as [claims|];
    [|intros H; injection H as _ <-; apply only_logged_refl].
  destruct (falsy_id (Claims.id claims)); simpl;
    [intros H; injection H as _ <-; apply only_logged_refl|].
  destruct (find _ (users w)) as [u|] eqn:Hfind; simpl;
    [|intros H; injection H as _ <-; unfold only_logged, same_tables; simpl; auto].
  destruct (Js.truthy (User.hash u)); simpl;
    [|intros H; injection H as _ <-; unfold only_logged, same_tables; simpl; auto].
  destruct (jwt_verify _ _ _); simpl;
    [|intros H; injection H as _ <-; unfold only_logged, same_tables; simpl; auto].
  rewrite Hfind. simpl. discriminate.
Qed.

(** X9.  Every call of changePasswordFromJwt ends in one of five ways: it
    returns the updated user; or it fails on the input schema, on an empty
    token, on two passwords that differ, or with the one message that
    stands for everything that went wrong inside the try block.  Each
    failure leaves the tables and the outbox as they were, and only the
    last one writes to the console, one entry, the failure it replaced. *)
Theorem changePasswordFromJwt_outcomes env raw w r w' :
  changePasswordFromJwt env raw w = (r, w') ->
  (exists u, r = Ok (VUser u))
  \/ (only_logged w w'
      /\ (r = Throw InputError
          \/ (exists code, r = Throw (TRPCError code "token is required!"))
          \/ (exists code,
                r = Throw (TRPCError code "Passwords does not match!"))))
  \/ (same_tables w w' /\ outbox w' = outbox w
      /\ (exists cause, console w' = cause :: console w)
      /\ exists code,
           r = Throw (TRPCError code "token is not valid, please try again!")).
Proof.
  unfold changePasswordFromJwt, procedure.
  destruct (changePasswordFromJwt_input raw) as [input|].
  2:{ intros H. injection H as <- <-. right. left.
      split; [apply only_logged_refl | auto]. }
  unfold changePasswordFromJwt_mutation, throwError.
  destruct (Js.truthy (ChangePasswordInput.token input)); simpl.
  2:{ intros H. injection H as <- <-. right. left.
      split; [apply only_logged_refl | eauto]. }
  destruct (_ =? _); simpl.
  2:{ intros H. injection H as <- <-. right. left.
      split; [apply only_logged_refl | eauto]. }
  unfold bind at 1 2. simpl. unfold try_catch.
  destruct (changePasswordFromJwt_try _ _ _ w) as [[v|e] w1] eqn:E.
  - intros H. injection H as <- <-. left.
    apply changePasswordFromJwt_try_ok in E as (c & u & _ & _ & _ & _ & -> & _).
    eexists. reflexivity.
  - apply changePasswordFromJwt_try_quiet in E as (T & Ho & Hc).
    intros H. injection H as <- <-. right. right. simpl.
    split; [exact T|]. split; [exact Ho|]. split; [|eexists; reflexivity].
    exists e. now rewrite Hc.
Qed.

(** X10.  A redemption succeeds only with a token that verifies, at the time
    of the call, against the hash stored for the user that the token names.
    It then rewrites the row of this user and no other, and nothing in that
    row but the hash, which becomes the hash of the submitted password, a
    password that has passed the schema. *)
Theorem changePasswordFromJwt_needs_verified_token env raw w v w' :
  changePasswordFromJwt env raw w = (Ok v, w') ->
  exists input claims u,
    let u' := User.mk (User.id u) (User.name u) (User.email u)
                (User.lastLogin u) (User.role u)
                (bcrypt_hashSync (ChangePasswordInput.password input) (salt env)) in
    changePasswordFromJwt_input raw = Some input
    /\ passwordSchema (ChangePasswordInput.password input) = true
    /\ jwt_decode (ChangePasswordInput.token input) = Some claims
    /\ Claims.id claims = Some (User.id u)
    /\ In u (users w)
    /\ jwt_verify (ChangePasswordInput.token input) (User.hash u) (now env) = true
    /\ v = VUser u'
    /\ only_row_changed (users w) (users w') u u'.
Proof.
  unfold changePasswordFromJwt, procedure.
  destruct (changePasswordFromJwt_input raw) as [input|] eqn:Hin; [|discriminate].
  intros H. apply changePasswordFromJwt_mutation_ok in H.
  apply changePasswordFromJwt_try_ok in H
    as (claims & u & Hdec & Hid & Hfind & Hv & Hval & Hrow).
  exists input, claims, u. cbv zeta. split; [reflexivity|].
  split.
  { unfold changePasswordFromJwt_input in Hin.
    destruct (RawChangePassword.token raw); [|discriminate].
    destruct (RawChangePassword.password raw) as [p|]; [|discriminate].
    destruct (RawChangePassword.newPassword raw); [|discriminate].
    destruct (passwordSchema p) eqn:Hp; [|discriminate]. simpl in Hin.
    destruct (passwordSchema _) in Hin; [|discriminate].
    now injection Hin as <-. }
  split; [exact Hdec|].
  apply find_some in Hfind as Hu. destruct Hu as [Hu Heq].
  apply Z.eqb_eq in Heq.
  split.
  { destruct (Claims.id claims) as [z|]; [|discriminate].
    simpl in Heq. now rewrite Heq. }
  auto.
Qed.

(** ** passwordResetLink *)

(** X11.  A reset request never writes to the tables.  It delivers one mail,
    to the address as it was typed, exactly when it returns undefined, which
    takes a row whose e-mail is the lowered address; in every other outcome,
    the answer for an unknown address and every failure, no mail is
    delivered. *)
Theorem passwordResetLink_mail env raw w r w' :
  passwordResetLink env raw w = (r, w') ->
  same_tables w w'
  /\ console w' = console w
  /\ ((r = Ok VUndefined
       /\ exists email user m,
            passwordResetLink_input raw = Some email
            /\ find (fun x => User.email x =? Js.toLowerCase email) (users w)
               = Some user
            /\ MailOptions.to m = email
            /\ outbox w' = m :: outbox w)
      \/ (r <> Ok VUndefined /\ outbox w' = outbox w)).
Proof.
  unfold passwordResetLink, procedure, same_tables.
  destruct (passwordResetLink_input raw) as [email|].
  2:{ intros H. injection H as <- <-.
      split; [auto|]. split; [reflexivity|].
      right. split; [discriminate | reflexivity]. }
  unfold passwordResetLink_mutation, throwError, bind.
  destruct (Js.truthy email); simpl.
  2:{ intros H. injection H as <- <-.
      split; [auto|]. split; [reflexivity|].
      right. split; [discriminate | reflexivity]. }
  destruct (find _ (users w)) as [user|] eqn:Hfind; simpl.
  2:{ intros H. injection H as <- <-. unfold same_tables. simpl.
      split; [auto|]. split; [reflexivity|].
      right. split; [discriminate | reflexivity]. }
  destruct (jwt_sign _ _ _) as [token|]; simpl.
  2:{ intros H. injection H as <- <-. unfold same_tables. simpl.
      split; [auto|]. split; [reflexivity|].
      right. split; [discriminate | reflexivity]. }
  destruct (ejs_render _ _) as [t|]; simpl.
  2:{ intros H. injection H as <- <-. unfold same_tables. simpl.
      split; [auto|]. split; [reflexivity|].
      right. split; [discriminate | reflexivity]. }
  destruct (options w) as [go|]; simpl.
  2:{ intros H. injection H as <- <-. unfold same_tables. simpl.
      split; [auto|]. split; [reflexivity|].
      right. split; [discriminate | reflexivity]. }
  destruct (sendEmail _ _); simpl; intros H; injection H as <- <-;
    unfold same_tables; simpl; (split; [auto|]); (split; [reflexivity|]).
  - left. split; [reflexivity|]. eexists email, user, _.
    split; [reflexivity|]. split; [exact Hfind|].
    split; [|reflexivity]. reflexivity.
  - right. split; [discriminate | reflexivity].
Qed.

(** ** Roles *)

Lemma privileges_kept_refl (w : World) : privileges_kept w w.
Proof. exists []. split; [now rewrite app_nil_r | constructor]. Qed.

Lemma privileges_nil (w : World) : privileges w = [] -> users w = [].
Proof. unfold privileges. destruct (users w); [reflexivity | discriminate]. Qed.

Lemma privileges_kept_trans (w1 w2 w3 : World) :
  privileges_kept w1 w2 -> privileges_kept w2 w3 -> privileges_kept w1 w3.
Proof.
  intros (a1 & E1 & U1) (a2 & E2 & U2). exists (a1 ++ a2)%list. split.
  - now rewrite E2, E1, app_assoc.
  - intros H. apply Forall_app. split; [auto|]. apply U2.
    intros H2. apply H. apply privileges_nil.
    assert (E : privileges w2 = []) by (unfold privileges; now rewrite H2).
    rewrite E1 in E. now apply app_eq_nil in E.
Qed.

Lemma same_tables_privileges (w w' : World) :
  same_tables w w' -> privileges_kept w w'.
Proof.
  intros (Hu & _). exists []. unfold privileges. rewrite Hu, app_nil_r.
  split; [reflexivity | constructor].
Qed.

(** Rewriting one row without touching its id and its role. *)
Lemma only_row_changed_privileges (w w' : World) (u u' : User.t) :
  only_row_changed (users w) (users w') u u' ->
  User.id u' = User.id u -> User.role u' = User.role u ->
  privileges_kept w w'.
Proof.
  intros (l1 & l2 & E & E') Hid Hrole. exists []. unfold privileges.
  rewrite E, E', !map_app, app_nil_r. simpl. rewrite Hid, Hrole.
  split; [reflexivity | constructor].
Qed.

Lemma register_privileges env raw w r w' :
  register env raw w = (r, w') -> privileges_kept w w'.
Proof.
  intros H. apply register_outcome in H.
  destruct H as [(T & _)|(input & u & _ & _ & Hrole & _ & Hu & _)].
  - now apply same_tables_privileges.
  - exists [(User.id u, User.role u)]. unfold privileges.
    rewrite Hu, map_app. split; [reflexivity|].
    intros Hne. constructor; [|constructor]. simpl. rewrite Hrole.
    destruct (users w); [contradiction | reflexivity].
Qed.

Lemma update_privileges env session raw w r w' :
  update env session raw w = (r, w') -> privileges_kept w w'.
Proof.
  destruct r as [v|e].
  - unfold update, procedure.
    destruct (update_input raw) as [input|]; [|discriminate].
    intros H. apply update_mutation_ok in H as (u & _ & Hrow & _).
    now apply (only_row_changed_privileges w w' _ _ Hrow).
  - intros H. unfold update, procedure in H.
    destruct (update_input raw) as [input|].
    + apply update_mutation_throw in H as (T & _).
      now apply same_tables_privileges.
    + injection H as _ <-. apply privileges_kept_refl.
Qed.

Lemma passwordResetLink_tables env raw :
  preserves same_tables (passwordResetLink env raw).
Proof.
  unfold passwordResetLink, procedure, passwordResetLink_mutation, throwError.
  repeat first
    [ exact same_tables_refl | exact same_tables_trans
    | apply preserves_ret | apply preserves_throw | apply preserves_bind
    | progress intros
    | match goal with
      | |- preserves _ (match ?x with _ => _ end) => destruct x
      | |- preserves _ (if ?x then _ else _) => destruct x
      end
    | (intros ?w; unfold same_tables; simpl; auto; fail) ].
Qed.

Lemma changePasswordFromJwt_privileges env raw w r w' :
  changePasswordFromJwt env raw w = (r, w') -> privileges_kept w w'.
Proof.
  unfold changePasswordFromJwt, procedure.
  destruct (changePasswordFromJwt_input raw) as [input|].
  2:{ intros H. injection H as _ <-. apply privileges_kept_refl. }
  destruct r as [v|e]; intros H.
  - apply changePasswordFromJwt_mutation_ok in H.
    apply changePasswordFromJwt_try_ok in H as (c & u & _ & _ & _ & _ & _ & Hrow).
    now apply (only_row_changed_privileges w w' _ _ Hrow).
  - apply changePasswordFromJwt_mutation_throw in H.
    now apply same_tables_privileges.
Qed.

Lemma step_privileges w w' : step w w' -> privileges_kept w w'.
Proof.
  intros [env raw r H|session r H|env session raw r H|env raw r H|env raw r H].
  - eapply register_privileges; exact H.
  - injection H as _ <-. apply same_tables_privileges.
    unfold same_tables. simpl. auto.
  - eapply update_privileges; exact H.
  - apply same_tables_privileges.
    pose proof (passwordResetLink_tables env raw w) as T. now rewrite H in T.
  - eapply changePasswordFromJwt_privileges; exact H.
Qed.

(** X12.  No sequence of calls of the router changes the id or the role of an
    existing user, and once the table holds a user every row that is added
    is a plain user: after the first registration the router never makes an
    administrator. *)
Theorem router_keeps_privileges w w' :
  steps w w' -> privileges_kept w w'.
Proof.
  induction 1 as [w|w1 w2 w3 H _ IH].
  - apply privileges_kept_refl.
  - eapply privileges_kept_trans; [apply step_privileges; exact H | exact IH].
Qed.

(** ** The REST endpoint *)

(** X13.  The REST handler answers 200 only for a POST with the right key
    whose register call returned a value, and for every such request; a
    failure of register is never answered with 200.  Its status is always
    one of 200, 400, 401, 404, 405 and 500. *)
Theorem respond_status (req : Request.t) (outcome : result value) :
  (status (respond req outcome) = 200%Z
   <-> Request.method req = "POST"
       /\ Request.x_zt1_auth req = Some "secret"
       /\ exists v, outcome = Ok v)
  /\ In (status (respond req outcome)) [200; 400; 401; 404; 405; 500]%Z.
Proof.
  unfold respond, createUserHandler.
  destruct (Request.method req =? "POST") eqn:Hm; simpl.
  2:{ apply String.eqb_neq in Hm. split; [|auto 10].
      split; [discriminate | intros (E & _); contradiction]. }
  apply String.eqb_eq in Hm.
  destruct (negb (Js.truthy_opt (Request.x_zt1_auth req))
            || negb (verifyApiKey (str (Request.x_zt1_auth req)))) eqn:Hk; simpl.
  { split; [|auto 10]. split; [discriminate|].
    intros (_ & E & _). apply apiKey_gate in E. congruence. }
  apply apiKey_gate in Hk.
  destruct outcome as [v|e].
  - simpl. split; [|auto]. split; [eauto | reflexivity].
  - assert (Hne : forall s, s <> 200%Z ->
              (s = 200%Z <-> Request.method req = "POST"
                            /\ Request.x_zt1_auth req = Some "secret"
                            /\ exists v : value, Throw e = Ok v)).
    { intros s Hs. split; [contradiction | intros (_ & _ & v & E); discriminate]. }
    destruct e as [code message| | | | | |]; simpl;
      try (split; [apply Hne; discriminate | auto 10]).
    destruct (JSON_parse message); destruct code; simpl;
      (split; [apply Hne; discriminate | auto 10]).
Qed.


(** ** How the procedures compose *)

Lemma find_none_all {A} (p : A -> bool) (l : list A) :
  (forall x, In x l -> p x = false) -> find p l = None.
Proof.
  induction l as [|a l IH]; simpl; [reflexivity|].
  intros H. rewrite (H a) by auto. apply IH. auto.
Qed.

(** X15.  Whenever a register call has created a row, by returning the user
    or by failing on a notification template after the write, the same call
    made again is refused as already taken, whatever the clock and the salt,
    and writes nothing. *)
Theorem register_again_is_refused env raw w r w' :
  register env raw w = (r, w') ->
  users w' <> users w ->
  forall env2,
    exists input w2,
      register_input raw = Some input
      /\ register env2 raw w'
         = (Throw (TRPCError NOT_FOUND
                     ("email " ++ dquote ++ RegisterInput.email input ++ dquote
                      ++ " already taken")), w2)
      /\ only_logged w' w2.
Proof.
  intros H Hnew env2. apply register_outcome in H.
  destruct H as [((Hu & _) & _)
                |(input & u & Hin & Hmail & _ & _ & Hu & Ho & (settings & Hopt & Hen)
                  & Ht & _)]; [contradiction|].
  exists input. unfold register, procedure. rewrite Hin.
  destruct (find (fun x => User.email x =? RegisterInput.email input) (users w'))
    as [u1|] eqn:Hfind.
  - rewrite (register_rejects_same_email env2 input w' settings u1); trivial;
      [|congruence].
    eexists. split; [reflexivity|].
    unfold only_logged, same_tables, logged. simpl. auto 6.
  - assert (Hin' : In u (users w')) by (rewrite Hu; apply in_or_app; simpl; auto).
    apply (find_none _ _ Hfind) in Hin'. simpl in Hin'.
    rewrite Hmail, String.eqb_refl in Hin'. discriminate.
Qed.

(** X16.  A user who has registered under an e-mail with a capital letter
    cannot get a reset mail: unless some row happens to hold the lowered
    address, a reset request for the very address of the registration finds
    nobody, answers with the message for unknown addresses and delivers no
    mail, because register stores the e-mail as typed and the reset looks up
    the lowered one. *)
Theorem reset_misses_registered_capitals env raw w u w' env2 raw2 :
  register env raw w = (Ok (VRegistered u), w') ->
  Js.toLowerCase (User.email u) <> User.email u ->
  (forall x, In x (users w) -> User.email x <> Js.toLowerCase (User.email u)) ->
  passwordResetLink_input raw2 = Some (User.email u) ->
  passwordResetLink env2 raw2 w'
  = (Ok (VString "Mail sent if email exist!"),
     logged (UserFindFirstByEmail (Js.toLowerCase (User.email u))) w').
Proof.
  intros H Hcap Hfree Hin2. apply register_outcome in H.
  destruct H as [(_ & _ & _ & Hr & _)
                |(input & u1 & _ & Hmail & _ & _ & Hu & _ & _ & Ht & [Hr|Hr])];
    [now destruct (Hr u)| |discriminate Hr].
  injection Hr as <-.
  unfold passwordResetLink, procedure. rewrite Hin2.
  apply passwordResetLink_unknown; [congruence|].
  apply find_none_all. intros x Hx. apply String.eqb_neq.
  rewrite Hu in Hx. apply in_app_or in Hx as [Hx|[<-|[]]]; auto.
Qed.


End Behaviour.

(** * The further properties at work on the executable instance *)

(** X4: the registration of Ann's own address is refused and writes
    nothing. *)
Lemma register_refusal_writes_nothing_witness :
  let raw := RawRegister.mk (Some "a@x.com") (Some "Abc123") (Some "Bob") in
  only_logged Toy.world (snd (register (L:=Toy.libs) Toy.env raw Toy.world)).
Proof.
  intros raw.
  apply (register_refusal_writes_nothing (L:=Toy.libs) Toy.env raw Toy.world
           (fst (register (L:=Toy.libs) Toy.env raw Toy.world))).
  - reflexivity.
  - intros u E. vm_compute in E. discriminate E.
  - intros E. vm_compute in E. discriminate E.
Defined.

(** X5: a registration on an installation whose notification template does
    not render. *)
Lemma register_template_failure_keeps_user_witness :
  let broken := toy_with (fun _ _ => None) (fun _ => true) in
  let raw := RawRegister.mk (Some "c@x.com") (Some "Abc123") (Some "Cat") in
  exists input u,
    register_input (L:=broken) raw = Some input
    /\ users (snd (register (L:=broken) Toy.env raw notifying_world))
       = ([Toy.ann; zoe] ++ [u])%list
    /\ User.email u = RegisterInput.email input
    /\ User.role u = USER.
Proof.
  intros broken raw.
  exact (register_template_failure_keeps_user (L:=broken) Toy.env raw
           notifying_world
           (snd (register (L:=broken) Toy.env raw notifying_world)) eq_refl).
Defined.


(** X12: Bob registers after Ann. *)
Lemma router_keeps_privileges_witness :
  let raw := RawRegister.mk (Some "b@x.com") (Some "Abc123") (Some "Bob") in
  privileges_kept Toy.world (snd (register (L:=Toy.libs) Toy.env raw Toy.world)).
Proof.
  intros raw. apply (router_keeps_privileges (L:=Toy.libs)).
  eapply steps_step; [|apply steps_refl].
  exact (@step_register Toy.libs Toy.world
           (snd (register (L:=Toy.libs) Toy.env raw Toy.world)) Toy.env raw
           (fst (register (L:=Toy.libs) Toy.env raw Toy.world)) eq_refl).
Defined.

(** X8: Ann sends a wrong current password. *)
Lemma update_failure_writes_nothing_witness :
  let raw := UpdateInput.mk None (Some "Wrong123") (Some "Xyz123")
               (Some "Xyz123") None in
  only_logged Toy.world
    (snd (update (L:=Toy.libs) Toy.env (Session.mk 1) raw Toy.world)).
Proof.
  intros raw.
  exact (update_failure_writes_nothing (L:=Toy.libs) Toy.env (Session.mk 1) raw
           Toy.world (TRPCError BAD_REQUEST "Old password is incorrect!")
           (snd (update (L:=Toy.libs) Toy.env (Session.mk 1) raw Toy.world))
           eq_refl).
Defined.

(** X9: a redemption with a token that nobody signed. *)
Lemma changePasswordFromJwt_outcomes_witness :
  let raw := RawChangePassword.mk (Some "junk") (Some "Abc123") (Some "Abc123") in
  let r := fst (changePasswordFromJwt (L:=Toy.libs) Toy.env raw Toy.world) in
  let w' := snd (changePasswordFromJwt (L:=Toy.libs) Toy.env raw Toy.world) in
  (exists u, r = Ok (VUser u))
  \/ (only_logged Toy.world w'
      /\ (r = Throw InputError
          \/ (exists code, r = Throw (TRPCError code "token is required!"))
          \/ (exists code,
                r = Throw (TRPCError code "Passwords does not match!"))))
  \/ (same_tables Toy.world w' /\ outbox w' = outbox Toy.world
      /\ (exists cause, console w' = cause :: console Toy.world)
      /\ exists code,
           r = Throw (TRPCError code "token is not valid, please try again!")).
Proof.
  intros raw r w'.
  exact (changePasswordFromJwt_outcomes (L:=Toy.libs) Toy.env raw Toy.world r w'
           eq_refl).
Defined.

(** X10: Ann redeems the token signed with her hash. *)
Lemma changePasswordFromJwt_needs_verified_token_witness :
  let token := String (ascii_of_nat 1) (User.hash Toy.ann) in
  let raw := RawChangePassword.mk (Some token) (Some "Xyz123") (Some "Xyz123") in
  let w' := snd (changePasswordFromJwt (L:=Toy.libs) Toy.env raw Toy.world) in
  exists input claims u,
    changePasswordFromJwt_input raw = Some input
    /\ passwordSchema (ChangePasswordInput.password input) = true
    /\ Toy.decode (ChangePasswordInput.token input) = Some claims
    /\ Claims.id claims = Some (User.id u)
    /\ In u (users Toy.world)
    /\ Toy.verify (ChangePasswordInput.token input) (User.hash u) (now Toy.env)
       = true
    /\ VUser (User.mk 1 "Ann" "a@x.com" 0 ADMIN (Toy.hashSync "Xyz123" "s1"))
       = VUser (User.mk (User.id u) (User.name u) (User.email u)
                  (User.lastLogin u) (User.role u)
                  (Toy.hashSync (ChangePasswordInput.password input) "s1"))
    /\ only_row_changed (users Toy.world) (users w') u
         (User.mk (User.id u) (User.name u) (User.email u)
            (User.lastLogin u) (User.role u)
            (Toy.hashSync (ChangePasswordInput.password input) "s1")).
Proof.
  intros token raw w'.
  exact (changePasswordFromJwt_needs_verified_token (L:=Toy.libs) Toy.env raw
           Toy.world
           (VUser (User.mk 1 "Ann" "a@x.com" 0 ADMIN (Toy.hashSync "Xyz123" "s1")))
           w' eq_refl).
Defined.

(** X11: Ann asks for a reset link. *)
Lemma passwordResetLink_mail_witness :
  let raw := Some "a@x.com" in
  let r := fst (passwordResetLink (L:=Toy.libs) Toy.env raw Toy.world) in
  let w' := snd (passwordResetLink (L:=Toy.libs) Toy.env raw Toy.world) in
  same_tables Toy.world w'
  /\ console w' = console Toy.world
  /\ ((r = Ok VUndefined
       /\ exists email user m,
            passwordResetLink_input (L:=Toy.libs) raw = Some email
            /\ find (fun x => User.email x =? Js.toLowerCase email)
                 (users Toy.world) = Some user
            /\ MailOptions.to m = email
            /\ outbox w' = m :: outbox Toy.world)
      \/ (r <> Ok VUndefined /\ outbox w' = outbox Toy.world)).
Proof.
  intros raw r w'.
  exact (passwordResetLink_mail (L:=Toy.libs) Toy.env raw Toy.world r w' eq_refl).
Defined.


(** X15: Bob registers twice. *)
Lemma register_again_is_refused_witness :
  let raw := RawRegister.mk (Some "b@x.com") (Some "Abc123") (Some "Bob") in
  let w' := snd (register (L:=Toy.libs) Toy.env raw Toy.world) in
  exists input w2,
    register_input (L:=Toy.libs) raw = Some input
    /\ register (L:=Toy.libs) Toy.env raw w'
       = (Throw (TRPCError NOT_FOUND
                   ("email " ++ dquote ++ RegisterInput.email input ++ dquote
                    ++ " already taken")), w2)
    /\ only_logged w' w2.
Proof.
  intros raw w'.
  apply (register_again_is_refused (L:=Toy.libs) Toy.env raw Toy.world
           (fst (register (L:=Toy.libs) Toy.env raw Toy.world)) w' eq_refl).
  intros E. vm_compute in E. discriminate E.
Defined.

(** X16: Bob registers as B@x.com and asks for a reset link. *)
Lemma reset_misses_registered_capitals_witness :
  let raw := RawRegister.mk (Some "B@x.com") (Some "Abc123") (Some "Bob") in
  let bob := User.mk 2 "Bob" "B@x.com" 1000 USER (Toy.hashSync "Abc123" "s1") in
  let w' := snd (register (L:=Toy.libs) Toy.env raw Toy.world) in
  passwordResetLink (L:=Toy.libs) Toy.env (Some "B@x.com") w'
  = (Ok (VString "Mail sent if email exist!"),
     logged (UserFindFirstByEmail "b@x.com") w').
Proof.
  intros raw bob w'.
  apply (reset_misses_registered_capitals (L:=Toy.libs) Toy.env raw Toy.world
           bob w' Toy.env (Some "B@x.com") eq_refl).
  - intros E. vm_compute in E. discriminate E.
  - intros x [<-|[]] E. vm_compute in E. discriminate E.
  - reflexivity.
Defined.


